(** * LocalDiscoveryUIHandler: a shallow embedding and its properties

    The handler of chrome/browser/ui/webui/local_discovery
    (local_discovery_ui_handler.cc) is a single-threaded coordinator that is
    re-entered by WebUI messages and by the completion callbacks of its
    collaborators.  Every member function is rendered as a computation in a
    small state/output/fault monad:

    - the state is the process-wide counter [g_num_visible], the profile the
      WebUI belongs to, and the members of the handler object ([this]);
    - the output is the list of calls made to collaborators, in call order
      (JavaScript calls to the page, [Start()] of an operation or a flow, ...);
    - a fault is a dereference of an empty [scoped_ptr] or a failed [DCHECK].
*)

From Stdlib Require Import ZArith Lia DecimalString.
From stdpp Require Import base option list strings gmap fin_maps.

Open Scope string_scope.
Open Scope Z_scope.

(** ** Values exchanged with the page (base::Value) *)

#[warnings="-register-all"]
Inductive Value : Type :=
| NullValue
| BooleanValue (b : bool)
| IntegerValue (i : Z)
| StringValue (s : string)
| ListValue (l : list Value)
| DictionaryValue (d : list (string * Value)).

(** [ListValue::GetString(i, &out)], [GetInteger] and [GetBoolean]: the
    out-parameter is written only when the element exists and has the
    requested type. *)
Definition GetString (args : list Value) (i : nat) : option string :=
  match args !! i with Some (StringValue s) => Some s | _ => None end.

Definition GetInteger (args : list Value) (i : nat) : option Z :=
  match args !! i with Some (IntegerValue z) => Some z | _ => None end.

Definition GetBoolean (args : list Value) (i : nat) : option bool :=
  match args !! i with Some (BooleanValue b) => Some b | _ => None end.

(** [DictionaryValue::Set*]: a key is bound to one value; the entries are kept
    in order of first insertion. *)
Fixpoint dict_set (k : string) (v : Value) (d : list (string * Value))
  : list (string * Value) :=
  match d with
  | [] => [(k, v)]
  | (k', v') :: d' =>
      if decide (k' = k) then (k, v) :: d' else (k', v') :: dict_set k v d'
  end.

(** ** Strings *)

(** [std::string::c_str()] read through a [%s] conversion: the text up to the
    first NUL character. *)
Fixpoint c_str (s : string) : string :=
  match s with
  | EmptyString => EmptyString
  | String c r => if decide (c = Ascii.zero) then EmptyString else String c (c_str r)
  end.

(** The [%d] conversion of [base::StringPrintf]. *)
Definition print_d (n : Z) : string := NilZero.string_of_int (Z.to_int n).

Definition kPrivetAutomatedClaimURLFormat (base_url token : string) : string :=
  c_str base_url +:+ "/confirm?token=" +:+ c_str token.

Definition kAccountIndexUseOAuth2 : Z := -1.

Definition HTTP_OK : Z := 200.

(** ** Device descriptions *)

Record HostPortPair : Type := { host : string; port : Z }.

(** Modelled from the spec: the declaration of [DeviceDescription]
    (privet_device_lister.h) is not part of the sources; the record has the
    members the handler reads, which are the ones the data model lists
    (address, resolved IP, service base URL, id).  A default-constructed
    description has every member empty. *)
Record DeviceDescription : Type := {
  address : HostPortPair;
  ip_address : list Z;
  url : string;
  id : string
}.

Definition default_description : DeviceDescription :=
  {| address := {| host := ""; port := 0 |}; ip_address := []; url := ""; id := "" |}.

(** A GURL is represented by the text given to its constructor.  Parsing and
    canonicalisation are GURL's own (its source is not part of these files);
    the handler only builds the text and passes the value on. *)
Record GURL : Type := { spec : string }.

(** ** Collaborators *)

(** The profile behind the WebUI: the sign-in manager (with the authenticated
    user name it reports) and the OAuth2 token service, either of which may be
    missing. *)
Record Profile : Type := {
  signin_manager : option string;
  token_service : option nat
}.

(** The two callbacks bound to a client resolution, and the two bound to a
    CloudPrintAccountManager. *)
Inductive ResolutionCallback : Type :=
| StartInfoHTTP_cb
| StartRegisterHTTP_cb (user : string).

Inductive AccountsCallback : Type :=
| OnCloudPrintAccountsResolved_cb
| OnXSRFTokenForSecondaryAccount_cb (automated_claim_url : GURL).

(** The two constructors of PrivetConfirmApiCallFlow. *)
Inductive ConfirmFlow : Type :=
| OAuth2ConfirmFlow (service : nat) (automated_claim_url : GURL)
| CookieConfirmFlow (user_index : Z) (xsrf_token : string) (automated_claim_url : GURL).

Inductive ConfirmStatus : Type := SUCCESS | CONFIRM_FAILURE.

(** Calls the handler makes, recorded in call order. *)
Inductive Effect : Type :=
| CallJavascriptFunction (fn : string) (args : list Value)
| ListerStart
| DiscoverNewDevices (force : bool)
| PrivetResolutionStart (name : string) (addr : HostPortPair) (cb : ResolutionCallback)
| RegisterOperationStart (user : string)
| InfoOperationStart
| CompleteRegistration
| AccountManagerStart (base_url : string) (user_index : Z) (cb : AccountsCallback)
| ConfirmFlowStart (flow : ConfirmFlow)
| ReleaseClient.

(** ** The handler object *)

(** Members of LocalDiscoveryUIHandler.  A [scoped_ptr] member is an option
    (or a flag when nothing is read from the object it owns).  The members that
    are only ever assigned and started ([privet_resolution_],
    [current_info_operation_], [confirm_api_call_flow_],
    [cloud_print_account_manager_]) are represented by the [Effect] their
    [Start()] leaves in the output. *)
Record Handler : Type := {
  is_visible_ : bool;
  privet_lister_ : bool;
  service_discovery_client_ : bool;
  privet_http_factory_ : bool;
  current_http_client_ : option string;
  current_register_operation_ : option string;
  current_register_device_ : string;
  current_register_user_index_ : Z;
  xsrf_token_for_primary_user_ : string;
  device_descriptions_ : gmap string DeviceDescription
}.

Definition set_is_visible_ (v : bool) (h : Handler) : Handler :=
  {| is_visible_ := v;
     privet_lister_ := privet_lister_ h;
     service_discovery_client_ := service_discovery_client_ h;
     privet_http_factory_ := privet_http_factory_ h;
     current_http_client_ := current_http_client_ h;
     current_register_operation_ := current_register_operation_ h;
     current_register_device_ := current_register_device_ h;
     current_register_user_index_ := current_register_user_index_ h;
     xsrf_token_for_primary_user_ := xsrf_token_for_primary_user_ h;
     device_descriptions_ := device_descriptions_ h |}.

Definition set_privet_lister_ (v : bool) (h : Handler) : Handler :=
  {| is_visible_ := is_visible_ h;
     privet_lister_ := v;
     service_discovery_client_ := service_discovery_client_ h;
     privet_http_factory_ := privet_http_factory_ h;
     current_http_client_ := current_http_client_ h;
     current_register_operation_ := current_register_operation_ h;
     current_register_device_ := current_register_device_ h;
     current_register_user_index_ := current_register_user_index_ h;
     xsrf_token_for_primary_user_ := xsrf_token_for_primary_user_ h;
     device_descriptions_ := device_descriptions_ h |}.

Definition set_service_discovery_client_ (v : bool) (h : Handler) : Handler :=
  {| is_visible_ := is_visible_ h;
     privet_lister_ := privet_lister_ h;
     service_discovery_client_ := v;
     privet_http_factory_ := privet_http_factory_ h;
     current_http_client_ := current_http_client_ h;
     current_register_operation_ := current_register_operation_ h;
     current_register_device_ := current_register_device_ h;
     current_register_user_index_ := current_register_user_index_ h;
     xsrf_token_for_primary_user_ := xsrf_token_for_primary_user_ h;
     device_descriptions_ := device_descriptions_ h |}.

Definition set_privet_http_factory_ (v : bool) (h : Handler) : Handler :=
  {| is_visible_ := is_visible_ h;
     privet_lister_ := privet_lister_ h;
     service_discovery_client_ := service_discovery_client_ h;
     privet_http_factory_ := v;
     current_http_client_ := current_http_client_ h;
     current_register_operation_ := current_register_operation_ h;
     current_register_device_ := current_register_device_ h;
     current_register_user_index_ := current_register_user_index_ h;
     xsrf_token_for_primary_user_ := xsrf_token_for_primary_user_ h;
     device_descriptions_ := device_descriptions_ h |}.

Definition set_current_http_client_ (v : option string) (h : Handler) : Handler :=
  {| is_visible_ := is_visible_ h;
     privet_lister_ := privet_lister_ h;
     service_discovery_client_ := service_discovery_client_ h;
     privet_http_factory_ := privet_http_factory_ h;
     current_http_client_ := v;
     current_register_operation_ := current_register_operation_ h;
     current_register_device_ := current_register_device_ h;
     current_register_user_index_ := current_register_user_index_ h;
     xsrf_token_for_primary_user_ := xsrf_token_for_primary_user_ h;
     device_descriptions_ := device_descriptions_ h |}.

Definition set_current_register_operation_ (v : option string) (h : Handler) : Handler :=
  {| is_visible_ := is_visible_ h;
     privet_lister_ := privet_lister_ h;
     service_discovery_client_ := service_discovery_client_ h;
     privet_http_factory_ := privet_http_factory_ h;
     current_http_client_ := current_http_client_ h;
     current_register_operation_ := v;
     current_register_device_ := current_register_device_ h;
     current_register_user_index_ := current_register_user_index_ h;
     xsrf_token_for_primary_user_ := xsrf_token_for_primary_user_ h;
     device_descriptions_ := device_descriptions_ h |}.

Definition set_current_register_device_ (v : string) (h : Handler) : Handler :=
  {| is_visible_ := is_visible_ h;
     privet_lister_ := privet_lister_ h;
     service_discovery_client_ := service_discovery_client_ h;
     privet_http_factory_ := privet_http_factory_ h;
     current_http_client_ := current_http_client_ h;
     current_register_operation_ := current_register_operation_ h;
     current_register_device_ := v;
     current_register_user_index_ := current_register_user_index_ h;
     xsrf_token_for_primary_user_ := xsrf_token_for_primary_user_ h;
     device_descriptions_ := device_descriptions_ h |}.

Definition set_current_register_user_index_ (v : Z) (h : Handler) : Handler :=
  {| is_visible_ := is_visible_ h;
     privet_lister_ := privet_lister_ h;
     service_discovery_client_ := service_discovery_client_ h;
     privet_http_factory_ := privet_http_factory_ h;
     current_http_client_ := current_http_client_ h;
     current_register_operation_ := current_register_operation_ h;
     current_register_device_ := current_register_device_ h;
     current_register_user_index_ := v;
     xsrf_token_for_primary_user_ := xsrf_token_for_primary_user_ h;
     device_descriptions_ := device_descriptions_ h |}.

Definition set_xsrf_token_for_primary_user_ (v : string) (h : Handler) : Handler :=
  {| is_visible_ := is_visible_ h;
     privet_lister_ := privet_lister_ h;
     service_discovery_client_ := service_discovery_client_ h;
     privet_http_factory_ := privet_http_factory_ h;
     current_http_client_ := current_http_client_ h;
     current_register_operation_ := current_register_operation_ h;
     current_register_device_ := current_register_device_ h;
     current_register_user_index_ := current_register_user_index_ h;
     xsrf_token_for_primary_user_ := v;
     device_descriptions_ := device_descriptions_ h |}.

Definition set_device_descriptions_ (v : gmap string DeviceDescription) (h : Handler) : Handler :=
  {| is_visible_ := is_visible_ h;
     privet_lister_ := privet_lister_ h;
     service_discovery_client_ := service_discovery_client_ h;
     privet_http_factory_ := privet_http_factory_ h;
     current_http_client_ := current_http_client_ h;
     current_register_operation_ := current_register_operation_ h;
     current_register_device_ := current_register_device_ h;
     current_register_user_index_ := current_register_user_index_ h;
     xsrf_token_for_primary_user_ := xsrf_token_for_primary_user_ h;
     device_descriptions_ := v |}.

(** The state a member function runs in. *)
Record World : Type := {
  g_num_visible : Z;
  profile : Profile;
  this : Handler
}.

(** ** The monad *)

Inductive Fault : Type := NullDereference | DcheckFailure.

Inductive Outcome (A : Type) : Type :=
| Done (a : A) (w : World) (out : list Effect)
| Abort (f : Fault).
Arguments Done {A} a w out.
Arguments Abort {A} f.

Definition M (A : Type) : Type := World -> Outcome A.

Definition ret {A} (a : A) : M A := fun w => Done a w [].

Definition bind {A B} (m : M A) (k : A -> M B) : M B :=
  fun w =>
    match m w with
    | Abort f => Abort f
    | Done a w' out =>
        match k a w' with
        | Abort f => Abort f
        | Done b w'' out' => Done b w'' (out ++ out')
        end
    end.

Notation "x <- m ;; k" := (bind m (fun x => k))
  (at level 100, m at next level, right associativity).
Notation "m ;;; k" := (bind m (fun _ => k))
  (at level 100, right associativity).

Definition fault {A} (f : Fault) : M A := fun _ => Abort f.
Definition emit (e : Effect) : M unit := fun w => Done tt w [e].
Definition get_this : M Handler := fun w => Done (this w) w [].
Definition get_profile : M Profile := fun w => Done (profile w) w [].
Definition modify_this (f : Handler -> Handler) : M unit :=
  fun w => Done tt {| g_num_visible := g_num_visible w; profile := profile w;
                      this := f (this w) |} [].
Definition get_num_visible : M Z := fun w => Done (g_num_visible w) w [].
Definition set_num_visible (n : Z) : M unit :=
  fun w => Done tt {| g_num_visible := n; profile := profile w; this := this w |} [].

Definition DCHECK (rv : bool) : M unit :=
  if rv then ret tt else fault DcheckFailure.

(** The effects and the final state of a computation that completes. *)
Definition effects_of {A} (o : Outcome A) : list Effect :=
  match o with Done _ _ out => out | Abort _ => [] end.

Definition final_world {A} (o : Outcome A) : option World :=
  match o with Done _ w _ => Some w | Abort _ => None end.

Definition is_empty_string (s : string) : bool :=
  match s with EmptyString => true | String _ _ => false end.

Definition is_empty_list {A} (l : list A) : bool :=
  match l with [] => true | _ :: _ => false end.

(** ** Member functions *)

Section LocalDiscoveryUIHandler.

(** [net::IPAddressToString] is a library function of net/base; the handler
    only passes its result on to the page. *)
Variable IPAddressToString : list Z -> string.

(** *** Reports to the page *)

Definition LogRegisterErrorToWeb (error : string) : M unit :=
  emit (CallJavascriptFunction "local_discovery.registrationFailed" [StringValue error]).

Definition LogRegisterDoneToWeb (id : string) : M unit :=
  emit (CallJavascriptFunction "local_discovery.registrationSuccess" [StringValue id]).

Definition LogInfoErrorToWeb (error : string) : M unit :=
  emit (CallJavascriptFunction "local_discovery.infoFailed" [StringValue error]).

(** *** Visibility *)

Definition GetHasVisible : M bool :=
  n <- get_num_visible ;; ret (negb (n =? 0)).

Definition SetIsVisible (visible : bool) : M unit :=
  h <- get_this ;;
  if negb (eqb visible (is_visible_ h)) then
    n <- get_num_visible ;;
    set_num_visible (n + (if visible then 1 else -1)) ;;;
    modify_this (set_is_visible_ visible)
  else ret tt.

Definition HandleIsVisible (args : list Value) : M unit :=
  let rv := GetBoolean args 0 in
  DCHECK (bool_decide (is_Some rv)) ;;;
  SetIsVisible (default false rv).

(** *** The registry *)

(** [device_descriptions_[name]]: [std::map::operator[]] default-constructs
    and inserts the element when the key is absent. *)
Definition device_descriptions_at (name : string) : M DeviceDescription :=
  h <- get_this ;;
  match device_descriptions_ h !! name with
  | Some d => ret d
  | None =>
      modify_this
        (set_device_descriptions_ (<[name := default_description]> (device_descriptions_ h))) ;;;
      ret default_description
  end.

Definition GetCloudPrintBaseUrl (device_name : string) : M string :=
  d <- device_descriptions_at device_name ;; ret (url d).

Definition service_info (description : DeviceDescription) : list (string * Value) :=
  let info := [] in
  let info := dict_set "domain" (StringValue (host (address description))) info in
  let info := dict_set "port" (IntegerValue (port (address description))) info in
  let ip_addr_string :=
    if negb (is_empty_list (ip_address description))
    then IPAddressToString (ip_address description) else "" in
  let info := dict_set "ip" (StringValue ip_addr_string) info in
  let info := dict_set "lastSeen" (StringValue "unknown") info in
  dict_set "registered" (BooleanValue (negb (is_empty_string (id description)))) info.

Definition DeviceChanged (added : bool) (name : string) (description : DeviceDescription)
  : M unit :=
  h <- get_this ;;
  modify_this (set_device_descriptions_ (<[name := description]> (device_descriptions_ h))) ;;;
  emit (CallJavascriptFunction "local_discovery.onServiceUpdate"
          [StringValue name; DictionaryValue (service_info description)]).

Definition DeviceRemoved (name : string) : M unit :=
  h <- get_this ;;
  modify_this (set_device_descriptions_ (delete name (device_descriptions_ h))) ;;;
  emit (CallJavascriptFunction "local_discovery.onServiceUpdate"
          [StringValue name; NullValue]).

(** *** Messages from the page *)

Definition HandleStart (args : list Value) : M unit :=
  h <- get_this ;;
  (if privet_lister_ h then ret tt
   else
     modify_this (set_service_discovery_client_ true) ;;;
     modify_this (set_privet_lister_ true) ;;;
     modify_this (set_privet_http_factory_ true)) ;;;
  emit ListerStart ;;;
  emit (DiscoverNewDevices false).

Definition HandleRegisterDevice (args : list Value) : M unit :=
  let rv := GetString args 0 in
  DCHECK (bool_decide (is_Some rv)) ;;;
  let device_name := default "" rv in
  modify_this (set_current_register_device_ device_name) ;;;
  base_url <- GetCloudPrintBaseUrl device_name ;;
  emit (AccountManagerStart base_url 0 OnCloudPrintAccountsResolved_cb).

Definition HandleInfoRequested (args : list Value) : M unit :=
  let device_name := default "" (GetString args 0) in
  h <- get_this ;;
  if privet_http_factory_ h then
    d <- device_descriptions_at device_name ;;
    emit (PrivetResolutionStart device_name (address d) StartInfoHTTP_cb)
  else fault NullDereference.

Definition HandleChooseUser (args : list Value) : M unit :=
  let rv := GetInteger args 0 in
  match rv with
  | Some i => modify_this (set_current_register_user_index_ i)
  | None => ret tt
  end ;;;
  DCHECK (bool_decide (is_Some rv)) ;;;
  let rv := GetString args 1 in
  DCHECK (bool_decide (is_Some rv)) ;;;
  let user := default "" rv in
  h <- get_this ;;
  if privet_http_factory_ h then
    d <- device_descriptions_at (current_register_device_ h) ;;
    emit (PrivetResolutionStart (current_register_device_ h) (address d)
            (StartRegisterHTTP_cb user))
  else fault NullDereference.

(** *** Completion of a client resolution *)

Definition StartRegisterHTTP (user : string) (http_client : option string) : M unit :=
  modify_this (set_current_http_client_ http_client) ;;;
  match http_client with
  | None => LogRegisterErrorToWeb "Resolution failed"
  | Some _ =>
      modify_this (set_current_register_operation_ (Some user)) ;;;
      emit (RegisterOperationStart user)
  end.

Definition StartInfoHTTP (http_client : option string) : M unit :=
  modify_this (set_current_http_client_ http_client) ;;;
  match http_client with
  | None => LogRegisterErrorToWeb "Resolution failed"
  | Some _ => emit InfoOperationStart
  end.

(** *** The account sub-flow and the confirmation *)

Definition GetSyncAccount : M string :=
  p <- get_profile ;;
  match signin_manager p with
  | None => ret ""
  | Some authenticated_username => ret authenticated_username
  end.

Definition StartCookieConfirmFlow (user_index : Z) (xsrf_token : string)
    (automated_claim_url : GURL) : M unit :=
  emit (ConfirmFlowStart (CookieConfirmFlow user_index xsrf_token automated_claim_url)).

(** The [for] loop of OnCloudPrintAccountsResolved: [account_index] runs along
    with the iterator, also over the entries that are skipped. *)
Fixpoint annotate_accounts (sync_account : string) (accounts : list string)
    (account_index : Z) (accounts_annotated_list : list Value) : list Value :=
  match accounts with
  | [] => accounts_annotated_list
  | i :: rest =>
      if decide (i = sync_account)
      then annotate_accounts sync_account rest (account_index + 1) accounts_annotated_list
      else annotate_accounts sync_account rest (account_index + 1)
             (accounts_annotated_list
                ++ [ListValue [IntegerValue account_index; StringValue i]])
  end.

Definition OnCloudPrintAccountsResolved (accounts : list string) (xsrf_token : string)
  : M unit :=
  modify_this (set_xsrf_token_for_primary_user_ xsrf_token) ;;;
  sync_account <- GetSyncAccount ;;
  let accounts_annotated_list :=
    if negb (is_empty_string sync_account)
    then [ListValue [IntegerValue kAccountIndexUseOAuth2; StringValue sync_account]]
    else [] in
  emit (CallJavascriptFunction "local_discovery.requestUser"
          [ListValue (annotate_accounts sync_account accounts 0 accounts_annotated_list)]).

Definition OnXSRFTokenForSecondaryAccount (automated_claim_url : GURL)
    (accounts : list string) (xsrf_token : string) : M unit :=
  h <- get_this ;;
  StartCookieConfirmFlow (current_register_user_index_ h) xsrf_token automated_claim_url.

Definition OnPrivetRegisterClaimToken (token : string) (url : GURL) : M unit :=
  h <- get_this ;;
  match current_http_client_ h with
  | None => fault NullDereference
  | Some name =>
      match device_descriptions_ h !! name with
      | None => LogRegisterErrorToWeb "Device no longer exists"
      | Some _ =>
          base_url <- GetCloudPrintBaseUrl name ;;
          let automated_claim_url :=
            {| spec := kPrivetAutomatedClaimURLFormat base_url token |} in
          p <- get_profile ;;
          if decide (current_register_user_index_ h = kAccountIndexUseOAuth2) then
            match token_service p with
            | None => LogRegisterErrorToWeb "Could not get token service"
            | Some service =>
                emit (ConfirmFlowStart (OAuth2ConfirmFlow service automated_claim_url))
            end
          else if decide (current_register_user_index_ h = 0) then
            StartCookieConfirmFlow (current_register_user_index_ h)
              (xsrf_token_for_primary_user_ h) automated_claim_url
          else
            emit (AccountManagerStart base_url (current_register_user_index_ h)
                    (OnXSRFTokenForSecondaryAccount_cb automated_claim_url))
      end
  end.

Definition OnPrivetRegisterError : M unit :=
  LogRegisterErrorToWeb "Registration error".

Definition OnPrivetRegisterDone (device_id : string) : M unit :=
  modify_this (set_current_register_operation_ None) ;;;
  modify_this (set_current_http_client_ None) ;;;
  LogRegisterDoneToWeb device_id.

Definition OnConfirmDone (status : ConfirmStatus) : M unit :=
  match status with
  | SUCCESS =>
      h <- get_this ;;
      match current_register_operation_ h with
      | None => fault NullDereference
      | Some _ => emit CompleteRegistration
      end
  | CONFIRM_FAILURE => LogRegisterErrorToWeb "Confirm error"
  end.

Definition OnPrivetInfoDone (http_code : Z) (json_value : option (list (string * Value)))
  : M unit :=
  if negb (http_code =? HTTP_OK) || negb (bool_decide (is_Some json_value)) then
    LogInfoErrorToWeb ("HTTP error " +:+ print_d http_code)
  else
    match json_value with
    | None => fault NullDereference
    | Some json =>
        emit (CallJavascriptFunction "local_discovery.renderInfo" [DictionaryValue json])
    end.

(** *** Construction and destruction *)

(** The default constructor initialises [is_visible_]; the smart pointers,
    strings and the map start empty.  [current_register_user_index_] has no
    initialiser: the value it starts with is a parameter. *)
Definition LocalDiscoveryUIHandler_ctor (indeterminate_index : Z) : Handler :=
  {| is_visible_ := false;
     privet_lister_ := false;
     service_discovery_client_ := false;
     privet_http_factory_ := false;
     current_http_client_ := None;
     current_register_operation_ := None;
     current_register_device_ := "";
     current_register_user_index_ := indeterminate_index;
     xsrf_token_for_primary_user_ := "";
     device_descriptions_ := ∅ |}.

(** The constructor that takes a lister (a mock, in tests) has no member
    initialiser list: [is_visible_] starts with an indeterminate value too. *)
Definition LocalDiscoveryUIHandler_ctor_lister (indeterminate_visible : bool)
    (indeterminate_index : Z) : Handler :=
  {| is_visible_ := indeterminate_visible;
     privet_lister_ := true;
     service_discovery_client_ := false;
     privet_http_factory_ := false;
     current_http_client_ := None;
     current_register_operation_ := None;
     current_register_device_ := "";
     current_register_user_index_ := indeterminate_index;
     xsrf_token_for_primary_user_ := "";
     device_descriptions_ := ∅ |}.

Definition LocalDiscoveryUIHandler_dtor : M unit :=
  SetIsVisible false ;;;
  h <- get_this ;;
  if service_discovery_client_ h then
    modify_this (set_service_discovery_client_ false) ;;;
    emit ReleaseClient
  else ret tt.

(** *** Entry points *)

(** Everything that re-enters the handler: a message from the page, an event
    of the device lister, or the completion of a collaborator. *)
Inductive Input : Type :=
| Message (name : string) (args : list Value)
| Lister_DeviceChanged (added : bool) (name : string) (description : DeviceDescription)
| Lister_DeviceRemoved (name : string)
| ResolutionDone (cb : ResolutionCallback) (http_client : option string)
| RegisterClaimToken (token : string) (url : GURL)
| RegisterError
| RegisterDone (device_id : string)
| InfoDone (http_code : Z) (json_value : option (list (string * Value)))
| AccountsDone (cb : AccountsCallback) (accounts : list string) (xsrf_token : string)
| ConfirmDone (status : ConfirmStatus).

(** RegisterMessages: the message names and the handlers bound to them. *)
Definition RegisterMessages : list (string * (list Value -> M unit)) :=
  [ ("start", HandleStart);
    ("isVisible", HandleIsVisible);
    ("registerDevice", HandleRegisterDevice);
    ("info", HandleInfoRequested);
    ("chooseUser", HandleChooseUser) ].

Fixpoint find_callback (name : string) (table : list (string * (list Value -> M unit)))
  : option (list Value -> M unit) :=
  match table with
  | [] => None
  | (n, f) :: rest => if decide (n = name) then Some f else find_callback name rest
  end.

Definition run_resolution_callback (cb : ResolutionCallback) (http_client : option string)
  : M unit :=
  match cb with
  | StartInfoHTTP_cb => StartInfoHTTP http_client
  | StartRegisterHTTP_cb user => StartRegisterHTTP user http_client
  end.

Definition run_accounts_callback (cb : AccountsCallback) (accounts : list string)
    (xsrf_token : string) : M unit :=
  match cb with
  | OnCloudPrintAccountsResolved_cb => OnCloudPrintAccountsResolved accounts xsrf_token
  | OnXSRFTokenForSecondaryAccount_cb automated_claim_url =>
      OnXSRFTokenForSecondaryAccount automated_claim_url accounts xsrf_token
  end.

Definition dispatch (i : Input) : M unit :=
  match i with
  | Message name args =>
      match find_callback name RegisterMessages with
      | Some f => f args
      | None => ret tt
      end
  | Lister_DeviceChanged added name description => DeviceChanged added name description
  | Lister_DeviceRemoved name => DeviceRemoved name
  | ResolutionDone cb http_client => run_resolution_callback cb http_client
  | RegisterClaimToken token url => OnPrivetRegisterClaimToken token url
  | RegisterError => OnPrivetRegisterError
  | RegisterDone device_id => OnPrivetRegisterDone device_id
  | InfoDone http_code json_value => OnPrivetInfoDone http_code json_value
  | AccountsDone cb accounts xsrf_token => run_accounts_callback cb accounts xsrf_token
  | ConfirmDone status => OnConfirmDone status
  end.

(** Inputs delivered one after the other; the output is the concatenation of
    the outputs, a fault ends the run. *)
Fixpoint run (inputs : list Input) : M unit :=
  match inputs with
  | [] => ret tt
  | i :: rest => dispatch i ;;; run rest
  end.

End LocalDiscoveryUIHandler.

(** ** Several handlers in one process *)

(** [g_num_visible] is shared by all handler objects of the process; each
    object belongs to the WebUI of some profile. *)
Record Process : Type := {
  num_visible : Z;
  handlers : gmap nat (Profile * Handler)
}.

Definition process_start : Process := {| num_visible := 0; handlers := ∅ |}.

(** A member function called on the object [id]. *)
Definition call_on (id : nat) (m : M unit) (p : Process) : option Process :=
  match handlers p !! id with
  | None => Some p
  | Some (prof, h) =>
      match m {| g_num_visible := num_visible p; profile := prof; this := h |} with
      | Abort _ => None
      | Done _ w _ =>
          Some {| num_visible := g_num_visible w;
                  handlers := <[id := (profile w, this w)]> (handlers p) |}
      end
  end.

(** [Create] is LocalDiscoveryUIHandler::Create() without a factory (the default
    constructor), [Toggle] a call of SetIsVisible, [Destroy] the destructor. *)
Inductive ProcessEvent : Type :=
| Create (id : nat) (prof : Profile) (indeterminate_index : Z)
| Toggle (id : nat) (visible : bool)
| Destroy (id : nat).

Definition process_step (e : ProcessEvent) (p : Process) : option Process :=
  match e with
  | Create id prof indeterminate_index =>
      match handlers p !! id with
      | Some _ => Some p
      | None =>
          Some {| num_visible := num_visible p;
                  handlers := <[id := (prof, LocalDiscoveryUIHandler_ctor indeterminate_index)]>
                                (handlers p) |}
      end
  | Toggle id visible => call_on id (SetIsVisible visible) p
  | Destroy id =>
      match call_on id LocalDiscoveryUIHandler_dtor p with
      | None => None
      | Some p' =>
          Some {| num_visible := num_visible p'; handlers := delete id (handlers p') |}
      end
  end.

Fixpoint process_run (es : list ProcessEvent) (p : Process) : option Process :=
  match es with
  | [] => Some p
  | e :: rest =>
      match process_step e p with
      | None => None
      | Some p' => process_run rest p'
      end
  end.

(** The number of handler objects whose [is_visible_] is set. *)
Definition visible_handlers (p : Process) : gmap nat (Profile * Handler) :=
  filter (fun kv => is_visible_ (snd (snd kv)) = true) (handlers p).

Definition count_visible (p : Process) : nat := size (visible_handlers p).

(** * Vocabulary of the properties *)

(** Unfolds the primitive operations of the monad. *)
Ltac unfold_M :=
  unfold bind, ret, emit, fault, get_this, get_profile, modify_this,
    get_num_visible, set_num_visible, DCHECK in *.

(** ** Discovery events *)

Inductive ListerEvent : Type :=
| Changed (added : bool) (name : string) (description : DeviceDescription)
| Removed (name : string).

Definition event_name (e : ListerEvent) : string :=
  match e with Changed _ name _ => name | Removed name => name end.

Definition lister_input (e : ListerEvent) : Input :=
  match e with
  | Changed added name description => Lister_DeviceChanged added name description
  | Removed name => Lister_DeviceRemoved name
  end.

(** The last event of the sequence that is about [name], if any. *)
Fixpoint last_event (name : string) (es : list ListerEvent) : option ListerEvent :=
  match es with
  | [] => None
  | e :: rest =>
      match last_event name rest with
      | Some e' => Some e'
      | None => if decide (event_name e = name) then Some e else None
      end
  end.

(** What the last event about a device leaves in the registry. *)
Definition registry_after (before : option DeviceDescription) (last : option ListerEvent)
  : option DeviceDescription :=
  match last with
  | Some (Changed _ _ description) => Some description
  | Some (Removed _) => None
  | None => before
  end.

(** What the page is told about a description, entry by entry: the host and
    the port of the address, the IP address as text (empty when the
    description has none), a last-seen text that is always "unknown", and
    whether the device has an id, that is, has been registered. *)
Definition description_entries (ip2s : list Z -> string) (description : DeviceDescription)
  : list (string * Value) :=
  [ ("domain", StringValue (host (address description)));
    ("port", IntegerValue (port (address description)));
    ("ip", StringValue match ip_address description with
                       | [] => ""
                       | _ :: _ => ip2s (ip_address description)
                       end);
    ("lastSeen", StringValue "unknown");
    ("registered", BooleanValue (bool_decide (id description <> ""))) ].

(** The one notification an event sends to the page. *)
Definition notification (ip2s : list Z -> string) (e : ListerEvent) : Effect :=
  CallJavascriptFunction "local_discovery.onServiceUpdate"
    [StringValue (event_name e);
     match e with
     | Changed _ _ description => DictionaryValue (description_entries ip2s description)
     | Removed _ => NullValue
     end].

Definition with_registry (reg : gmap string DeviceDescription) (w : World) : World :=
  {| g_num_visible := g_num_visible w; profile := profile w;
     this := set_device_descriptions_ reg (this w) |}.

(** ** Account lists and the cached token *)

(** The name GetSyncAccount reports: the authenticated user name of the
    sign-in manager, empty when there is no manager (or nobody is signed in). *)
Definition signed_in_account (p : Profile) : string := default "" (signin_manager p).

Definition account_entry (tag : Z) (name : string) : Value :=
  ListValue [IntegerValue tag; StringValue name].

(** The list as the description of the register request words it: first the
    signed-in account (if any) tagged with the token-path sentinel, then every
    returned account tagged with its position in the returned list, without
    those that duplicate the signed-in account. *)
Definition primary_entry (sync_account : string) : list Value :=
  if is_empty_string sync_account then []
  else [account_entry kAccountIndexUseOAuth2 sync_account].

Definition positioned (first : Z) (accounts : list string) : list (Z * string) :=
  imap (fun i name => (first + Z.of_nat i, name)) accounts.

Definition secondary_entries (sync_account : string) (accounts : list string) : list Value :=
  (fun p => account_entry (fst p) (snd p))
    <$> filter (fun p => snd p <> sync_account) (positioned 0 accounts).

(** The list the handler passes to local_discovery.requestUser. *)
Definition requested_accounts (o : Outcome unit) : list Value :=
  match effects_of o with
  | [CallJavascriptFunction _ [ListValue l]] => l
  | _ => []
  end.

Definition cached_primary_token (o : Outcome unit) : option string :=
  (fun w => xsrf_token_for_primary_user_ (this w)) <$> final_world o.

(** ** Outputs of the claim-token and info callbacks *)

Definition claim_url (base_url token : string) : GURL :=
  {| spec := kPrivetAutomatedClaimURLFormat base_url token |}.

Definition registration_failed (message : string) : Effect :=
  CallJavascriptFunction "local_discovery.registrationFailed" [StringValue message].

Definition render_info (json : list (string * Value)) : Effect :=
  CallJavascriptFunction "local_discovery.renderInfo" [DictionaryValue json].

Definition info_failed (http_code : Z) : Effect :=
  CallJavascriptFunction "local_discovery.infoFailed"
    [StringValue ("HTTP error " +:+ print_d http_code)].

(** ** Counting visible handlers *)

Definition visibility_delta (visible was_visible : bool) : Z :=
  if eqb visible was_visible then 0 else if visible then 1 else -1.

Definition shown (kv : nat * (Profile * Handler)) : Prop :=
  is_visible_ (snd (snd kv)) = true.

Definition weight (visible : bool) : nat := if visible then 1%nat else 0%nat.

(** The counter agrees with the objects. *)
Definition counter_consistent (p : Process) : Prop :=
  num_visible p = Z.of_nat (count_visible p).

(** ** Observations of an outcome *)

Definition registry_of (o : Outcome unit) : option (gmap string DeviceDescription) :=
  (fun w => device_descriptions_ (this w)) <$> final_world o.

(** ** Concrete data *)

Definition profile_a : Profile :=
  {| signin_manager := Some "a@x"; token_service := Some 7%nat |}.


Definition printer1 : DeviceDescription :=
  {| address := {| host := "printer-1.local"; port := 8080 |};
     ip_address := [192; 168; 0; 9];
     url := "https://www.google.com/cloudprint";
     id := "" |}.

(** A handler after "start", with printer-1 discovered, its client resolved
    and the account [index] chosen. *)
Definition session (prof : Profile) (index : Z) (reg : gmap string DeviceDescription)
  : World :=
  {| g_num_visible := 0;
     profile := prof;
     this :=
       {| is_visible_ := false;
          privet_lister_ := true;
          service_discovery_client_ := true;
          privet_http_factory_ := true;
          current_http_client_ := Some "printer-1";
          current_register_operation_ := Some "a@x";
          current_register_device_ := "printer-1";
          current_register_user_index_ := index;
          xsrf_token_for_primary_user_ := "xsrf-0";
          device_descriptions_ := reg |} |}.

Definition printer1_claim_url : GURL :=
  {| spec := "https://www.google.com/cloudprint/confirm?token=tok" |}.

Definition dotted (ip : list Z) : string :=
  String.concat "." (map print_d ip).

Definition registry1 : gmap string DeviceDescription := {[ "printer-1" := printer1 ]}.

(** The disjointness as the numeric semantics words it: no entry of the list
    is tagged 0. *)
Definition no_entry_tagged_zero (l : list Value) : Prop :=
  forall name, account_entry 0 name ∉ l.

(** ** Faults and steady parts of the state *)

Definition faulted {A} (o : Outcome A) : bool :=
  match o with Abort _ => true | Done _ _ _ => false end.

(** The inputs the handler cannot run to completion, read off the
    dereferences and the checks of each entry point. *)
Definition may_fault (i : Input) (w : World) : bool :=
  match i with
  | Message name args =>
      if decide ("start" = name) then false
      else if decide ("isVisible" = name) then
        negb (bool_decide (is_Some (GetBoolean args 0)))
      else if decide ("registerDevice" = name) then
        negb (bool_decide (is_Some (GetString args 0)))
      else if decide ("info" = name) then negb (privet_http_factory_ (this w))
      else if decide ("chooseUser" = name) then
        negb (bool_decide (is_Some (GetInteger args 0)))
        || negb (bool_decide (is_Some (GetString args 1)))
        || negb (privet_http_factory_ (this w))
      else false
  | RegisterClaimToken _ _ => negb (bool_decide (is_Some (current_http_client_ (this w))))
  | ConfirmDone SUCCESS =>
      negb (bool_decide (is_Some (current_register_operation_ (this w))))
  | _ => false
  end.

Definition is_visibility_message (i : Input) : bool :=
  match i with
  | Message name _ => bool_decide ("isVisible" = name)
  | _ => false
  end.

Definition is_lister_event (i : Input) : bool :=
  match i with
  | Lister_DeviceChanged _ _ _ | Lister_DeviceRemoved _ => true
  | _ => false
  end.

(** A string without NUL characters. *)
Fixpoint nul_free (s : string) : bool :=
  match s with
  | EmptyString => true
  | String c r => negb (bool_decide (c = Ascii.zero)) && nul_free r
  end.

(** What the claim-token callback starts for a registered device, by selector. *)
Definition claim_token_effect (prof : Profile) (index : Z) (cached_token : string)
    (d : DeviceDescription) (token : string) : Effect :=
  if decide (index = kAccountIndexUseOAuth2) then
    match token_service prof with
    | None => registration_failed "Could not get token service"
    | Some service => ConfirmFlowStart (OAuth2ConfirmFlow service (claim_url (url d) token))
    end
  else if decide (index = 0) then
    ConfirmFlowStart (CookieConfirmFlow index cached_token (claim_url (url d) token))
  else
    AccountManagerStart (url d) index
      (OnXSRFTokenForSecondaryAccount_cb (claim_url (url d) token)).

Definition with_this (h : Handler) (w : World) : World :=
  {| g_num_visible := g_num_visible w; profile := profile w; this := h |}.

(** The second registry has the entries of the first, unchanged, and
    possibly more names bound to the default description. *)
Definition grown_by_defaults (before after : gmap string DeviceDescription) : Prop :=
  forall k,
    after !! k = before !! k
    \/ (before !! k = None /\ after !! k = Some default_description).

(** The tag and the name of each entry of the annotated account list. *)
Definition annotated_pairs (sync_account : string) (accounts : list string)
  : list (Z * string) :=
  (if is_empty_string sync_account then [] else [(kAccountIndexUseOAuth2, sync_account)])
    ++ filter (fun p => snd p <> sync_account) (positioned 0 accounts).

(** ** Tactics for running the handlers *)

Ltac unfold_handlers :=
  unfold HandleStart, HandleIsVisible, HandleRegisterDevice, HandleInfoRequested,
    HandleChooseUser, StartRegisterHTTP, StartInfoHTTP, OnPrivetRegisterClaimToken,
    OnPrivetRegisterError, OnPrivetRegisterDone, OnConfirmDone, OnPrivetInfoDone,
    OnCloudPrintAccountsResolved, OnXSRFTokenForSecondaryAccount, DeviceChanged,
    DeviceRemoved, SetIsVisible, GetCloudPrintBaseUrl, device_descriptions_at,
    GetSyncAccount, StartCookieConfirmFlow, LogRegisterErrorToWeb, LogRegisterDoneToWeb,
    LogInfoErrorToWeb, run_resolution_callback, run_accounts_callback in *.

(** Runs a handler in a hypothesis [H : handler w = Done _ _ _]: the monad is
    evaluated and the data the handler branches on is split into cases. *)
Ltac split_innermost H :=
  match type of H with
  | context [match ?x with _ => _ end] =>
      lazymatch x with
      | context [match _ with _ => _ end] => fail
      | _ => destruct x eqn:?
      end
  end.

Ltac step_dispatch H :=
  unfold_handlers; unfold_M; cbn in H;
  repeat (split_innermost H; cbn in H);
  try discriminate H;
  try (injection H as <- <-); cbn.

(** * Properties *)

Lemma bind_Done {A B} (m : M A) (k : A -> M B) w a w1 out1 :
  m w = Done a w1 out1 ->
  bind m k w =
    match k a w1 with
    | Abort f => Abort f
    | Done b w2 out2 => Done b w2 (out1 ++ out2)
    end.
Proof. intros E. unfold bind. now rewrite E. Qed.

(** ** The registry under discovery events *)

Lemma with_registry_twice reg reg' w :
  with_registry reg (with_registry reg' w) = with_registry reg w.
Proof. reflexivity. Qed.

(** The dictionary DeviceChanged fills with Set* calls has exactly the five
    entries of [description_entries]. *)
Lemma service_info_entries ip2s description :
  service_info ip2s description = description_entries ip2s description.
Proof.
  unfold service_info, description_entries.
  destruct (ip_address description), (id description); reflexivity.
Qed.

Lemma DeviceChanged_eq ip2s added name description w :
  DeviceChanged ip2s added name description w
  = Done tt (with_registry (<[name := description]> (device_descriptions_ (this w))) w)
      [notification ip2s (Changed added name description)].
Proof.
  unfold DeviceChanged, notification. rewrite service_info_entries. reflexivity.
Qed.

Lemma dispatch_lister_event ip2s e w :
  dispatch ip2s (lister_input e) w =
    Done tt
      (with_registry
         (match e with
          | Changed _ name description => <[name := description]> (device_descriptions_ (this w))
          | Removed name => delete name (device_descriptions_ (this w))
          end) w)
      [notification ip2s e].
Proof. destruct e; [apply DeviceChanged_eq | reflexivity]. Qed.

Lemma run_lister_events ip2s es : forall w,
  exists reg,
    run ip2s (map lister_input es) w = Done tt (with_registry reg w) (map (notification ip2s) es)
    /\ forall name,
         reg !! name = registry_after (device_descriptions_ (this w) !! name) (last_event name es).
Proof.
  induction es as [|e es IH]; intros w.
  - exists (device_descriptions_ (this w)). split; [|reflexivity].
    destruct w as [g p [ ]]; reflexivity.
  - set (w1 := with_registry
         (match e with
          | Changed _ name description => <[name := description]> (device_descriptions_ (this w))
          | Removed name => delete name (device_descriptions_ (this w))
          end) w).
    destruct (IH w1) as (reg & Hrun & Hreg).
    exists reg. split.
    + cbn [map run]. rewrite (bind_Done _ _ _ _ _ _ (dispatch_lister_event ip2s e w)).
      fold w1. rewrite Hrun. subst w1. now rewrite with_registry_twice.
    + intros name. rewrite Hreg. cbn [last_event].
      destruct (last_event name es) as [e'|]; [reflexivity|].
      cbn [registry_after]. subst w1. cbn.
      destruct e as [added n d|n]; cbn; case_decide; subst; cbn.
      * apply lookup_insert_eq.
      * now apply lookup_insert_ne.
      * apply lookup_delete_eq.
      * now apply lookup_delete_ne.
Qed.

(** C1: for every sequence of device-changed and device-removed events, the
    registry afterwards holds, for each device name, what the last event about
    that name left (the full new description after a change, nothing after a
    removal, the previous entry when no event was about it), and the output
    is exactly one onServiceUpdate call per event, in arrival order, carrying
    the device name and either the null value (removal) or what the page is
    told about the new description: its host ("domain"), its port, its IP
    address as text ("ip", empty when there is none), "lastSeen" with the text
    "unknown", and "registered", true exactly when the id is not empty (the
    entries of [description_entries]). *)
Theorem C1_registry_follows_last_event :
  forall (ip2s : list Z -> string) (es : list ListerEvent) (w : World),
  exists w',
    run ip2s (map lister_input es) w = Done tt w' (map (notification ip2s) es)
    /\ (forall name,
          device_descriptions_ (this w') !! name
          = registry_after (device_descriptions_ (this w) !! name) (last_event name es))
    /\ w' = with_registry (device_descriptions_ (this w')) w.
Proof.
  intros ip2s es w. destruct (run_lister_events ip2s es w) as (reg & Hrun & Hreg).
  exists (with_registry reg w). split; [exact Hrun|]. split.
  - intros name. cbn. apply Hreg.
  - reflexivity.
Qed.

(** ** The annotated account list *)

Lemma GetSyncAccount_eq w : GetSyncAccount w = Done (signed_in_account (profile w)) w [].
Proof.
  unfold GetSyncAccount, signed_in_account; unfold_M.
  destruct (signin_manager (profile w)); reflexivity.
Qed.

Lemma positioned_cons first name accounts :
  positioned first (name :: accounts) = (first, name) :: positioned (first + 1) accounts.
Proof.
  unfold positioned. rewrite imap_cons. f_equal.
  - f_equal. lia.
  - apply imap_ext. intros i x _. cbn. f_equal. lia.
Qed.

Lemma annotate_accounts_positioned sync_account accounts : forall first acc,
  annotate_accounts sync_account accounts first acc
  = (acc ++ ((fun p => account_entry (fst p) (snd p))
               <$> filter (fun p => snd p <> sync_account) (positioned first accounts)))%list.
Proof.
  induction accounts as [|name accounts IH]; intros first acc.
  - cbn. now rewrite app_nil_r.
  - rewrite positioned_cons. cbn [annotate_accounts]. case_decide as Heq.
    + rewrite filter_cons_False by (cbn; intros Hne; now apply Hne). apply IH.
    + rewrite filter_cons_True by exact Heq.
      rewrite IH, fmap_cons, <- app_assoc. reflexivity.
Qed.

Lemma OnCloudPrintAccountsResolved_eq accounts xsrf_token w :
  OnCloudPrintAccountsResolved accounts xsrf_token w
  = Done tt
      {| g_num_visible := g_num_visible w; profile := profile w;
         this := set_xsrf_token_for_primary_user_ xsrf_token (this w) |}
      [CallJavascriptFunction "local_discovery.requestUser"
         [ListValue (primary_entry (signed_in_account (profile w))
                       ++ secondary_entries (signed_in_account (profile w)) accounts)]].
Proof.
  unfold OnCloudPrintAccountsResolved.
  erewrite bind_Done by reflexivity.
  erewrite bind_Done by apply GetSyncAccount_eq.
  cbn. rewrite annotate_accounts_positioned. unfold primary_entry, secondary_entries.
  now destruct (is_empty_string _).
Qed.

Lemma elem_of_positioned first accounts i name :
  (i, name) ∈ positioned first accounts
  <-> first <= i /\ accounts !! Z.to_nat (i - first) = Some name.
Proof.
  unfold positioned. rewrite elem_of_lookup_imap. split.
  - intros (k & x & Heq & Hk). inversion Heq; subst. split; [lia|].
    now replace (Z.to_nat (first + Z.of_nat k - first)) with k by lia.
  - intros [Hle Hk]. exists (Z.to_nat (i - first)), name. split; [|exact Hk].
    f_equal. lia.
Qed.

Lemma elem_of_secondary_entries sync_account accounts tag name :
  account_entry tag name ∈ secondary_entries sync_account accounts
  <-> 0 <= tag /\ accounts !! Z.to_nat tag = Some name /\ name <> sync_account.
Proof.
  unfold secondary_entries. rewrite list_elem_of_fmap. split.
  - intros ([i n] & Heq & Hin). cbn in Heq. inversion Heq; subst.
    apply list_elem_of_filter in Hin as [Hne Hin]. cbn in Hne.
    apply elem_of_positioned in Hin as [Hle Hk].
    rewrite Z.sub_0_r in Hk. auto.
  - intros (Hle & Hk & Hne). exists (tag, name). split; [reflexivity|].
    apply list_elem_of_filter. split; [exact Hne|].
    apply elem_of_positioned. now rewrite Z.sub_0_r.
Qed.

Lemma elem_of_primary_entry sync_account tag name :
  account_entry tag name ∈ primary_entry sync_account
  <-> tag = kAccountIndexUseOAuth2 /\ name = sync_account /\ sync_account <> "".
Proof.
  unfold primary_entry. destruct sync_account as [|c s]; cbn.
  - split; [intros H; inversion H | intros (_ & _ & H); now contradiction H].
  - rewrite list_elem_of_singleton. unfold account_entry. split.
    + intros H; inversion H; subst. repeat split; congruence.
    + intros (-> & -> & _). reflexivity.
Qed.

(** C7: the list sent to the page is the signed-in account tagged with the
    token-path sentinel (present only when there is a signed-in account),
    followed by the returned accounts in the resolver's order, each tagged
    with its position in the resolver's list, without the accounts whose name
    equals the signed-in account.  The signed-in account is the name
    GetSyncAccount reports, which is empty when nobody is signed in. *)
Theorem C7_annotated_account_list :
  forall (accounts : list string) (xsrf_token : string) (w : World),
    let sync_account := signed_in_account (profile w) in
    effects_of (OnCloudPrintAccountsResolved accounts xsrf_token w)
    = [CallJavascriptFunction "local_discovery.requestUser"
         [ListValue (primary_entry sync_account ++ secondary_entries sync_account accounts)]]
    /\ (forall tag name,
          account_entry tag name ∈ secondary_entries sync_account accounts
          <-> 0 <= tag /\ accounts !! Z.to_nat tag = Some name /\ name <> sync_account).
Proof.
  intros accounts xsrf_token w sync_account. split.
  - now rewrite OnCloudPrintAccountsResolved_eq.
  - intros tag name. apply elem_of_secondary_entries.
Qed.

(** With "a@x" signed in and the resolver returning only "b@x", the list sent
    to the page is [(-1, "a@x"); (0, "b@x")]: an entry tagged 0. *)
Lemma C2_entry_tagged_zero_is_emitted :
  ~ no_entry_tagged_zero
      (requested_accounts
         (OnCloudPrintAccountsResolved ["b@x"] "xsrf-1" (session profile_a 0 registry1))).
Proof.
  intros H. apply (H "b@x").
  change (account_entry 0 "b@x" ∈ [account_entry (-1) "a@x"; account_entry 0 "b@x"]).
  apply list_elem_of_further, list_elem_of_here.
Qed.

(** C2 (amended): tagging is positional and starts at 0.  The call to the
    page carries a list of (tag, name) entries in which an entry built from
    the resolver's list is tagged with the account's position in that list,
    counted from 0, and is present exactly for the accounts that differ from
    the signed-in account; the only entry tagged with the token-path sentinel
    is the one of the signed-in account.  So the list has an entry tagged 0
    exactly when the resolver returned at least one account and the first one
    is not the signed-in account, and that entry carries the first returned
    account. *)
Theorem C2_index_zero_tags_first_account :
  forall (accounts : list string) (xsrf_token : string) (w : World),
    let sync_account := signed_in_account (profile w) in
    let sent := requested_accounts (OnCloudPrintAccountsResolved accounts xsrf_token w) in
    effects_of (OnCloudPrintAccountsResolved accounts xsrf_token w)
    = [CallJavascriptFunction "local_discovery.requestUser" [ListValue sent]]
    /\ (forall v, v ∈ sent -> exists tag name, v = account_entry tag name)
    /\ (forall tag name,
          account_entry tag name ∈ sent
          <-> (tag = kAccountIndexUseOAuth2 /\ name = sync_account /\ sync_account <> "")
              \/ (0 <= tag /\ accounts !! Z.to_nat tag = Some name /\ name <> sync_account))
    /\ (forall name,
          account_entry 0 name ∈ sent
          <-> accounts !! 0%nat = Some name /\ name <> sync_account)
    /\ (forall name,
          account_entry kAccountIndexUseOAuth2 name ∈ sent -> name = sync_account).
Proof.
  intros accounts xsrf_token w sync_account sent.
  assert (Hsent : sent = (primary_entry sync_account
                            ++ secondary_entries sync_account accounts)%list).
  { subst sent. now rewrite OnCloudPrintAccountsResolved_eq. }
  assert (Hin : forall tag name,
             account_entry tag name ∈ sent
             <-> (tag = kAccountIndexUseOAuth2 /\ name = sync_account /\ sync_account <> "")
                 \/ (0 <= tag /\ accounts !! Z.to_nat tag = Some name
                     /\ name <> sync_account)).
  { intros tag name.
    now rewrite Hsent, elem_of_app, elem_of_primary_entry, elem_of_secondary_entries. }
  split; [|split; [|split; [|split]]].
  - rewrite OnCloudPrintAccountsResolved_eq. cbn [effects_of]. now rewrite Hsent.
  - intros v Hv. rewrite Hsent in Hv. apply elem_of_app in Hv as [Hv|Hv].
    + unfold primary_entry in Hv. destruct (is_empty_string sync_account); [inversion Hv|].
      apply list_elem_of_singleton in Hv. eauto.
    + unfold secondary_entries in Hv. apply list_elem_of_fmap in Hv as ([t n] & -> & _).
      eauto.
  - exact Hin.
  - intros name. rewrite Hin. change (Z.to_nat 0) with 0%nat.
    unfold kAccountIndexUseOAuth2. split.
    + intros [(Hs & _) | (_ & Hk & Hne)]; [discriminate Hs | auto].
    + intros [Hk Hne]. right. split; [lia | auto].
  - intros name Hn. apply Hin in Hn as [(_ & Hs & _) | (Hle & _)]; [exact Hs|].
    unfold kAccountIndexUseOAuth2 in Hle. lia.
Qed.

(** ** The cached token of the primary account *)

(** Two register requests in one session, whose resolutions return "xsrf-1"
    and then "xsrf-2": the cache holds "xsrf-1" after the first and no longer
    after the second. *)
Lemma C3_second_resolution_replaces_token :
  let register := Message "registerDevice" [StringValue "printer-1"] in
  let resolved := AccountsDone OnCloudPrintAccountsResolved_cb ["b@x"] in
  let w := session profile_a 0 registry1 in
  cached_primary_token (run dotted [register; resolved "xsrf-1"] w) = Some "xsrf-1"
  /\ cached_primary_token
       (run dotted [register; resolved "xsrf-1"; register; resolved "xsrf-2"] w)
     <> cached_primary_token (run dotted [register; resolved "xsrf-1"] w).
Proof.
  cbv zeta. split.
  - vm_compute. reflexivity.
  - vm_compute. discriminate.
Qed.

(** C3 (amended): every resolution of the primary account stores the token it
    returned, replacing whatever was cached before; the completion of a
    resolution for a secondary account leaves the cache alone. *)
Theorem C3_primary_token_follows_latest_resolution :
  forall (accounts : list string) (xsrf_token : string) (w : World),
    cached_primary_token (OnCloudPrintAccountsResolved accounts xsrf_token w)
    = Some xsrf_token
    /\ forall automated_claim_url,
         cached_primary_token
           (OnXSRFTokenForSecondaryAccount automated_claim_url accounts xsrf_token w)
         = Some (xsrf_token_for_primary_user_ (this w)).
Proof.
  intros accounts xsrf_token w. split.
  - now rewrite OnCloudPrintAccountsResolved_eq.
  - intros automated_claim_url. reflexivity.
Qed.

(** ** The claim-token callback *)

(** The callback when the device of the current client is in the registry:
    the branch on [current_register_user_index_]. *)
Lemma OnPrivetRegisterClaimToken_present token (gurl : GURL) w name d :
  current_http_client_ (this w) = Some name ->
  device_descriptions_ (this w) !! name = Some d ->
  OnPrivetRegisterClaimToken token gurl w =
    Done tt w
      [ let index := current_register_user_index_ (this w) in
        if decide (index = kAccountIndexUseOAuth2) then
          match token_service (profile w) with
          | None => registration_failed "Could not get token service"
          | Some service =>
              ConfirmFlowStart (OAuth2ConfirmFlow service (claim_url (url d) token))
          end
        else if decide (index = 0) then
          ConfirmFlowStart
            (CookieConfirmFlow index (xsrf_token_for_primary_user_ (this w))
               (claim_url (url d) token))
        else
          AccountManagerStart (url d) index
            (OnXSRFTokenForSecondaryAccount_cb (claim_url (url d) token)) ].
Proof.
  intros Hclient Hdev.
  unfold OnPrivetRegisterClaimToken, GetCloudPrintBaseUrl, device_descriptions_at,
    StartCookieConfirmFlow, LogRegisterErrorToWeb; unfold_M.
  rewrite Hclient, Hdev. cbn. rewrite Hdev. cbn.
  repeat case_decide; try reflexivity.
  destruct (token_service (profile w)); reflexivity.
Qed.

(** C4: when the claim token arrives for a device that is still registered,
    selector 0 starts the cookie confirm flow with the cached primary token
    and nothing else (no account manager is started); a selector greater than
    0 starts exactly one account manager for that index and nothing else, and
    the completion of that account manager starts the cookie confirm flow for
    the same index with the token the completion delivers. *)
Theorem C4_cookie_path_by_selector :
  forall (token : string) (gurl : GURL) (w : World) (name : string) (d : DeviceDescription),
    current_http_client_ (this w) = Some name ->
    device_descriptions_ (this w) !! name = Some d ->
    let index := current_register_user_index_ (this w) in
    let target := claim_url (url d) token in
    (index = 0 ->
       OnPrivetRegisterClaimToken token gurl w
       = Done tt w
           [ConfirmFlowStart
              (CookieConfirmFlow 0 (xsrf_token_for_primary_user_ (this w)) target)])
    /\ (0 < index ->
          OnPrivetRegisterClaimToken token gurl w
          = Done tt w
              [AccountManagerStart (url d) index (OnXSRFTokenForSecondaryAccount_cb target)]
          /\ forall accounts xsrf_token,
               run_accounts_callback (OnXSRFTokenForSecondaryAccount_cb target)
                 accounts xsrf_token w
               = Done tt w [ConfirmFlowStart (CookieConfirmFlow index xsrf_token target)]).
Proof.
  intros token gurl w name d Hclient Hdev index target.
  rewrite (OnPrivetRegisterClaimToken_present token gurl w name d Hclient Hdev).
  fold index. fold target. unfold kAccountIndexUseOAuth2. split.
  - intros H0. rewrite H0. reflexivity.
  - intros Hpos. split.
    + rewrite decide_False by lia. rewrite decide_False by lia. reflexivity.
    + intros accounts xsrf_token. reflexivity.
Qed.

Lemma C4_cookie_path_by_selector_witness :
  OnPrivetRegisterClaimToken "tok" {| spec := "" |} (session profile_a 0 registry1)
  = Done tt (session profile_a 0 registry1)
      [ConfirmFlowStart (CookieConfirmFlow 0 "xsrf-0" printer1_claim_url)]
  /\ OnPrivetRegisterClaimToken "tok" {| spec := "" |} (session profile_a 2 registry1)
     = Done tt (session profile_a 2 registry1)
         [AccountManagerStart "https://www.google.com/cloudprint" 2
            (OnXSRFTokenForSecondaryAccount_cb printer1_claim_url)]
  /\ run_accounts_callback (OnXSRFTokenForSecondaryAccount_cb printer1_claim_url)
       ["a@x"; "b@x"; "c@x"] "xsrf-2" (session profile_a 2 registry1)
     = Done tt (session profile_a 2 registry1)
         [ConfirmFlowStart (CookieConfirmFlow 2 "xsrf-2" printer1_claim_url)].
Proof.
  destruct (C4_cookie_path_by_selector "tok" {| spec := "" |}
              (session profile_a 0 registry1) "printer-1" printer1
              eq_refl eq_refl) as [H0 _].
  destruct (C4_cookie_path_by_selector "tok" {| spec := "" |}
              (session profile_a 2 registry1) "printer-1" printer1
              eq_refl eq_refl) as [_ H2].
  destruct H2 as [Hstart Hdone]; [reflexivity|].
  split; [apply H0; reflexivity|]. split; [exact Hstart | apply Hdone].
Defined.

(** C5: when the claim token arrives and the device of the current client is
    not in the registry, the only thing the handler does is report
    "Device no longer exists": no confirm flow and no account manager is
    started, and the state is unchanged. *)
Theorem C5_device_no_longer_exists :
  forall (token : string) (gurl : GURL) (w : World) (name : string),
    current_http_client_ (this w) = Some name ->
    device_descriptions_ (this w) !! name = None ->
    OnPrivetRegisterClaimToken token gurl w
    = Done tt w [registration_failed "Device no longer exists"].
Proof.
  intros token gurl w name Hclient Hdev.
  unfold OnPrivetRegisterClaimToken, LogRegisterErrorToWeb; unfold_M.
  rewrite Hclient, Hdev. reflexivity.
Qed.

Lemma C5_device_no_longer_exists_witness :
  current_http_client_ (this (session profile_a 0 ∅)) = Some "printer-1"
  /\ device_descriptions_ (this (session profile_a 0 ∅)) !! "printer-1" = None
  /\ OnPrivetRegisterClaimToken "tok" {| spec := "" |} (session profile_a 0 ∅)
     = Done tt (session profile_a 0 ∅) [registration_failed "Device no longer exists"].
Proof.
  split; [reflexivity|]. split; [reflexivity|].
  apply (C5_device_no_longer_exists "tok" {| spec := "" |} (session profile_a 0 ∅)
           "printer-1"); reflexivity.
Defined.



(** ** The info response *)

(** C8: an info response is answered by exactly one call to the page: the
    payload is passed on when the status is HTTP_OK and a payload came with
    it, and in every other case the info error is reported and nothing is
    passed on. *)
Theorem C8_info_forwarded_iff_ok_with_payload :
  forall (http_code : Z) (json_value : option (list (string * Value))) (w : World),
  exists out,
    OnPrivetInfoDone http_code json_value w = Done tt w out
    /\ ((http_code = HTTP_OK /\ exists json, json_value = Some json /\ out = [render_info json])
        \/ ((http_code <> HTTP_OK \/ json_value = None) /\ out = [info_failed http_code])).
Proof.
  intros http_code json_value w. unfold OnPrivetInfoDone, LogInfoErrorToWeb; unfold_M.
  destruct (Z.eqb_spec http_code HTTP_OK) as [Heq|Hne]; cbn [negb orb].
  - destruct json_value as [json|]; cbn.
    + eexists. split; [reflexivity|]. left. eauto.
    + eexists. split; [reflexivity|]. right. auto.
  - eexists. split; [reflexivity|]. right. auto.
Qed.

(** ** The visibility counter *)

Lemma SetIsVisible_eq visible w :
  SetIsVisible visible w =
    Done tt
      {| g_num_visible := g_num_visible w + visibility_delta visible (is_visible_ (this w));
         profile := profile w;
         this := set_is_visible_ visible (this w) |} [].
Proof.
  unfold SetIsVisible, visibility_delta; unfold_M.
  destruct w as [g prof [v a b c d e f i j k]]; cbn.
  destruct visible, v; cbn; rewrite ?Z.add_0_r; reflexivity.
Qed.

Lemma dtor_eq w :
  exists h out,
    LocalDiscoveryUIHandler_dtor w =
      Done tt
        {| g_num_visible := g_num_visible w + visibility_delta false (is_visible_ (this w));
           profile := profile w; this := h |} out
    /\ is_visible_ h = false.
Proof.
  unfold LocalDiscoveryUIHandler_dtor.
  erewrite bind_Done by apply SetIsVisible_eq. unfold_M. cbn.
  destruct (service_discovery_client_ (this w)); cbn; eauto.
Qed.

Lemma size_shown_insert (m : gmap nat (Profile * Handler)) id prof h :
  size (filter shown (<[id := (prof, h)]> m))
  = (weight (is_visible_ h) + size (filter shown (delete id m)))%nat.
Proof.
  rewrite map_filter_insert. case_decide as Hs; unfold shown in Hs; cbn in Hs.
  - rewrite Hs. cbn [weight Nat.add].
    rewrite <- (insert_delete_eq (filter shown m)).
    rewrite map_size_insert_None by apply lookup_delete_eq.
    now rewrite map_filter_delete.
  - destruct (is_visible_ h); [congruence | reflexivity].
Qed.

Lemma size_shown_lookup (m : gmap nat (Profile * Handler)) id prof h :
  m !! id = Some (prof, h) ->
  size (filter shown m)
  = (weight (is_visible_ h) + size (filter shown (delete id m)))%nat.
Proof.
  intros Hm. rewrite <- size_shown_insert with (prof := prof).
  now rewrite insert_id.
Qed.

Lemma visibility_delta_weight visible was_visible :
  Z.of_nat (weight was_visible) + visibility_delta visible was_visible
  = Z.of_nat (weight visible).
Proof. destruct visible, was_visible; reflexivity. Qed.

Lemma process_step_consistent e p :
  counter_consistent p ->
  exists p', process_step e p = Some p' /\ counter_consistent p'.
Proof.
  unfold counter_consistent, count_visible, visible_handlers. fold shown.
  intros Hp. destruct e as [id prof junk | id visible | id]; cbn [process_step].
  - destruct (handlers p !! id) as [x|] eqn:Hid; eexists; (split; [reflexivity|]); cbn.
    + exact Hp.
    + rewrite size_shown_insert. cbn. rewrite delete_id by exact Hid. exact Hp.
  - unfold call_on. destruct (handlers p !! id) as [[prof h]|] eqn:Hid.
    + rewrite SetIsVisible_eq. eexists. split; [reflexivity|]. cbn.
      rewrite size_shown_insert.
      rewrite Hp, (size_shown_lookup _ _ _ _ Hid).
      cbn [snd set_is_visible_ is_visible_].
      rewrite !Nat2Z.inj_add, <- (visibility_delta_weight visible (is_visible_ h)).
      lia.
    + eexists. split; [reflexivity | exact Hp].
  - unfold call_on. destruct (handlers p !! id) as [[prof h]|] eqn:Hid.
    + destruct (dtor_eq {| g_num_visible := num_visible p; profile := prof; this := h |})
        as (h' & out & -> & Hh').
      eexists. split; [reflexivity|]. cbn.
      rewrite delete_insert_eq.
      rewrite Hp, (size_shown_lookup _ _ _ _ Hid).
      rewrite Nat2Z.inj_add. destruct (is_visible_ h); cbn; lia.
    + eexists. split; [reflexivity|]. cbn. rewrite delete_id by exact Hid. exact Hp.
Qed.

Lemma process_run_consistent es : forall p,
  counter_consistent p ->
  exists p', process_run es p = Some p' /\ counter_consistent p'.
Proof.
  induction es as [|e es IH]; intros p Hp; cbn [process_run].
  - eauto.
  - destruct (process_step_consistent e p Hp) as (p1 & -> & Hp1). now apply IH.
Qed.

Lemma process_start_consistent : counter_consistent process_start.
Proof. reflexivity. Qed.

Lemma count_visible_pos p :
  count_visible p <> 0%nat
  <-> exists id prof h, handlers p !! id = Some (prof, h) /\ is_visible_ h = true.
Proof.
  unfold count_visible, visible_handlers. rewrite map_size_ne_0_lookup. split.
  - intros (id & [prof h] & Hx). apply map_lookup_filter_Some in Hx as [Hx Hs].
    exists id, prof, h. auto.
  - intros (id & prof & h & Hx & Hs). exists id, (prof, h).
    apply map_lookup_filter_Some. auto.
Qed.

(** [g_num_visible] is an [int]; a consistent counter lies between 0 and the
    number of live handlers, so the unbounded integers of the model and the
    machine integers agree on it. *)
Lemma counter_consistent_bounds p :
  counter_consistent p -> 0 <= num_visible p <= Z.of_nat (size (handlers p)).
Proof.
  unfold counter_consistent, count_visible, visible_handlers. intros ->.
  pose proof (map_size_filter (fun kv => is_visible_ (snd (snd kv)) = true) (handlers p)).
  lia.
Qed.

(** C9: a call of SetIsVisible moves the counter by exactly one when the
    object's [is_visible_] flips and leaves counter and object alone when the
    value is repeated; through every sequence of constructions (by Create()),
    toggles and destructions from the start of the process the counter equals
    the number of objects that are visible; and GetHasVisible answers true
    exactly when the counter is not zero, that is, when some object is
    visible. *)
Theorem C9_visibility_counter :
  (forall (visible : bool) (w : World),
     exists w',
       SetIsVisible visible w = Done tt w' []
       /\ is_visible_ (this w') = visible
       /\ g_num_visible w'
          = g_num_visible w
            + (if eqb visible (is_visible_ (this w)) then 0
               else if visible then 1 else -1)
       /\ (visible = is_visible_ (this w) -> w' = w))
  /\ (forall es : list ProcessEvent,
        exists p,
          process_run es process_start = Some p
          /\ num_visible p = Z.of_nat (count_visible p)
          /\ (num_visible p <> 0
              <-> exists id prof h,
                    handlers p !! id = Some (prof, h) /\ is_visible_ h = true))
  /\ (forall w : World,
        exists b,
          GetHasVisible w = Done b w [] /\ (b = true <-> g_num_visible w <> 0)).
Proof.
  split; [|split].
  - intros visible w. eexists. split; [apply SetIsVisible_eq|].
    cbn. split; [reflexivity|]. split; [reflexivity|].
    intros ->. unfold visibility_delta. rewrite eqb_reflx, Z.add_0_r.
    destruct w as [g prof [ ]]; reflexivity.
  - intros es.
    destruct (process_run_consistent es _ process_start_consistent) as (p & Hrun & Hp).
    exists p. split; [exact Hrun|]. split; [exact Hp|].
    rewrite <- count_visible_pos. rewrite Hp. lia.
  - intros w. exists (negb (g_num_visible w =? 0)). split; [reflexivity|].
    destruct (Z.eqb_spec (g_num_visible w) 0) as [->|Hne]; cbn.
    + split; [discriminate | intros H; now contradiction H].
    + split; auto.
Qed.

(** The pairing rests on [is_visible_] starting out unset.  A handler built by
    the lister constructor whose [is_visible_] reads as set was never counted,
    and its destructor takes the counter below zero. *)
Remark lister_constructor_is_not_counted :
  g_num_visible
    <$> final_world
          (LocalDiscoveryUIHandler_dtor
             {| g_num_visible := 0; profile := profile_a;
                this := LocalDiscoveryUIHandler_ctor_lister true 0 |})
  = Some (-1).
Proof. reflexivity. Qed.

(** ** Lookups that insert *)

Lemma device_descriptions_at_absent name w :
  device_descriptions_ (this w) !! name = None ->
  device_descriptions_at name w =
    Done default_description
      (with_registry (<[name := default_description]> (device_descriptions_ (this w))) w) [].
Proof.
  intros Habs. unfold device_descriptions_at; unfold_M. now rewrite Habs.
Qed.

(** C10: for a device name that is not in the registry, an info request for
    it, a choose-account request while it is the device under registration,
    and a read of its cloud base URL (as the register request does) each
    complete with a default, empty description stored under that name, and
    none of them calls the page: the output is only the start of the
    collaborator. *)
Theorem C10_lookup_inserts_default_description :
  forall (w : World) (name : string),
    device_descriptions_ (this w) !! name = None ->
    privet_http_factory_ (this w) = true ->
    let reg := <[name := default_description]> (device_descriptions_ (this w)) in
    reg !! name = Some default_description
    /\ HandleInfoRequested [StringValue name] w
       = Done tt (with_registry reg w)
           [PrivetResolutionStart name (address default_description) StartInfoHTTP_cb]
    /\ (forall index user,
          current_register_device_ (this w) = name ->
          exists w',
            HandleChooseUser [IntegerValue index; StringValue user] w
            = Done tt w'
                [PrivetResolutionStart name (address default_description)
                   (StartRegisterHTTP_cb user)]
            /\ device_descriptions_ (this w') = reg)
    /\ GetCloudPrintBaseUrl name w = Done "" (with_registry reg w) []
    /\ exists w',
         HandleRegisterDevice [StringValue name] w
         = Done tt w' [AccountManagerStart "" 0 OnCloudPrintAccountsResolved_cb]
         /\ device_descriptions_ (this w') = reg.
Proof.
  intros w name Habs Hfactory reg.
  split; [apply lookup_insert_eq|]. split; [|split; [|split]].
  - unfold HandleInfoRequested. cbn [GetString lookup list_lookup default].
    erewrite bind_Done by reflexivity. cbn [this]. rewrite Hfactory.
    erewrite bind_Done by (apply device_descriptions_at_absent; exact Habs).
    reflexivity.
  - intros index user Hdev. unfold HandleChooseUser.
    cbn [GetInteger GetString lookup list_lookup default].
    eexists. split.
    + erewrite bind_Done by reflexivity.
      erewrite bind_Done by reflexivity.
      erewrite bind_Done by reflexivity.
      erewrite bind_Done by reflexivity.
      cbn [this set_current_register_user_index_ privet_http_factory_
             current_register_device_].
      rewrite Hfactory, Hdev.
      erewrite bind_Done by (apply device_descriptions_at_absent; exact Habs).
      reflexivity.
    + reflexivity.
  - unfold GetCloudPrintBaseUrl.
    erewrite bind_Done by (apply device_descriptions_at_absent; exact Habs).
    reflexivity.
  - unfold HandleRegisterDevice, GetCloudPrintBaseUrl.
    cbn [GetString lookup list_lookup default].
    eexists. split.
    + erewrite bind_Done by reflexivity.
      erewrite bind_Done by reflexivity.
      erewrite bind_Done.
      2:{ erewrite bind_Done by (apply device_descriptions_at_absent; exact Habs).
          reflexivity. }
      reflexivity.
    + reflexivity.
Qed.

Lemma C10_lookup_inserts_default_description_witness :
  device_descriptions_ (this (session profile_a 0 ∅)) !! "printer-1" = None
  /\ registry_of (HandleInfoRequested [StringValue "printer-1"] (session profile_a 0 ∅))
     = Some {[ "printer-1" := default_description ]}
  /\ effects_of (HandleInfoRequested [StringValue "printer-1"] (session profile_a 0 ∅))
     = [PrivetResolutionStart "printer-1" {| host := ""; port := 0 |} StartInfoHTTP_cb]
  /\ (exists w',
        HandleChooseUser [IntegerValue 2; StringValue "c@x"] (session profile_a 0 ∅)
        = Done tt w'
            [PrivetResolutionStart "printer-1" {| host := ""; port := 0 |}
               (StartRegisterHTTP_cb "c@x")]
        /\ device_descriptions_ (this w') = {[ "printer-1" := default_description ]})
  /\ exists w',
       HandleRegisterDevice [StringValue "printer-1"] (session profile_a 0 ∅)
       = Done tt w' [AccountManagerStart "" 0 OnCloudPrintAccountsResolved_cb]
       /\ device_descriptions_ (this w') = {[ "printer-1" := default_description ]}.
Proof.
  split; [reflexivity|].
  destruct (C10_lookup_inserts_default_description (session profile_a 0 ∅) "printer-1"
              (lookup_empty "printer-1") eq_refl) as (_ & Hinfo & Hchoose & _ & Hregister).
  rewrite Hinfo. split; [reflexivity|]. split; [reflexivity|]. split.
  - exact (Hchoose 2 "c@x" eq_refl).
  - exact Hregister.
Defined.

(** * Further properties of the handler *)

(** ** Start *)

Lemma HandleStart_eq args w :
  HandleStart args w =
    Done tt
      (if privet_lister_ (this w) then w
       else {| g_num_visible := g_num_visible w; profile := profile w;
               this := set_privet_http_factory_ true
                         (set_privet_lister_ true
                            (set_service_discovery_client_ true (this w))) |})
      [ListerStart; DiscoverNewDevices false].
Proof.
  unfold HandleStart; unfold_M. cbn.
  destruct (privet_lister_ (this w)); cbn; [|reflexivity].
  destruct w; reflexivity.
Qed.

(** X1: "start" never faults and always asks the lister to start and to
    discover; it creates the discovery client, the lister and the HTTP factory
    only when no lister is set, and otherwise changes nothing, so a second
    "start" leaves the state of the first; the registry, the counter and the
    registration members are never touched. *)
Theorem X1_start_initialises_once :
  forall (args args' : list Value) (w : World),
  exists w1,
    HandleStart args w = Done tt w1 [ListerStart; DiscoverNewDevices false]
    /\ HandleStart args' w1 = Done tt w1 [ListerStart; DiscoverNewDevices false]
    /\ privet_lister_ (this w1) = true
    /\ (privet_lister_ (this w) = true -> w1 = w)
    /\ (privet_lister_ (this w) = false ->
        service_discovery_client_ (this w1) = true
        /\ privet_http_factory_ (this w1) = true)
    /\ g_num_visible w1 = g_num_visible w
    /\ is_visible_ (this w1) = is_visible_ (this w)
    /\ device_descriptions_ (this w1) = device_descriptions_ (this w)
    /\ current_http_client_ (this w1) = current_http_client_ (this w)
    /\ current_register_operation_ (this w1) = current_register_operation_ (this w)
    /\ current_register_device_ (this w1) = current_register_device_ (this w)
    /\ current_register_user_index_ (this w1) = current_register_user_index_ (this w)
    /\ xsrf_token_for_primary_user_ (this w1) = xsrf_token_for_primary_user_ (this w).
Proof.
  intros args args' w. eexists. split; [apply HandleStart_eq|].
  rewrite HandleStart_eq.
  destruct (privet_lister_ (this w)) eqn:Hl; cbn; rewrite ?Hl;
    repeat split; try reflexivity; try discriminate; auto.
Qed.

(** X2: a handler built with a lister already has [privet_lister_], so "start"
    does not create the HTTP factory for it and a following "info" (or
    "chooseUser") dereferences the empty factory pointer; on a handler from the
    default constructor the same messages complete after "start" and fault
    before it. *)
Theorem X2_start_with_lister_leaves_factory_unset :
  forall (ip2s : list Z -> string) (g : Z) (prof : Profile) (v : bool) (index j : Z)
         (args a : list Value) (user : string),
    let with_lister :=
      {| g_num_visible := g; profile := prof;
         this := LocalDiscoveryUIHandler_ctor_lister v index |} in
    let fresh :=
      {| g_num_visible := g; profile := prof;
         this := LocalDiscoveryUIHandler_ctor index |} in
    let choose := Message "chooseUser" [IntegerValue j; StringValue user] in
    run ip2s [Message "start" args; Message "info" a] with_lister = Abort NullDereference
    /\ run ip2s [Message "start" args; choose] with_lister = Abort NullDereference
    /\ faulted (run ip2s [Message "start" args; Message "info" a] fresh) = false
    /\ faulted (run ip2s [Message "start" args; choose] fresh) = false
    /\ run ip2s [Message "info" a] fresh = Abort NullDereference
    /\ run ip2s [choose] fresh = Abort NullDereference.
Proof.
  intros ip2s g prof v index j args a user with_lister fresh choose.
  repeat split; subst with_lister fresh choose; cbn [run dispatch];
    change (find_callback "start" RegisterMessages) with (Some HandleStart);
    change (find_callback "info" RegisterMessages) with (Some HandleInfoRequested);
    change (find_callback "chooseUser" RegisterMessages) with (Some HandleChooseUser);
    try (erewrite bind_Done by apply HandleStart_eq); reflexivity.
Qed.

(** ** Faults *)

Lemma find_callback_RegisterMessages name :
  find_callback name RegisterMessages =
    if decide ("start" = name) then Some HandleStart
    else if decide ("isVisible" = name) then Some HandleIsVisible
    else if decide ("registerDevice" = name) then Some HandleRegisterDevice
    else if decide ("info" = name) then Some HandleInfoRequested
    else if decide ("chooseUser" = name) then Some HandleChooseUser
    else None.
Proof. reflexivity. Qed.

Lemma faulted_bind {A B} (m : M A) (k : A -> M B) w :
  faulted (bind m k w)
  = match m w with Abort _ => true | Done a w' _ => faulted (k a w') end.
Proof. unfold bind. destruct (m w) as [a w' out|f]; [|reflexivity]. now destruct (k a w'). Qed.

(** X3: the handler faults on exactly these inputs: "isVisible" without a
    boolean, "registerDevice" without a string, "info" while there is no HTTP
    factory, "chooseUser" without an integer and a string or while there is no
    HTTP factory, a claim token while there is no current client, and a
    successful confirmation while there is no register operation.  Every
    other input (lister events, resolution, info, account and register
    completions, failed confirmations, "start", unknown messages) runs to
    completion; in particular the dereference of the info payload is never
    reached with an empty pointer. *)
Theorem X3_dispatch_faults_exactly_when :
  forall (ip2s : list Z -> string) (i : Input) (w : World),
    faulted (dispatch ip2s i w) = may_fault i w.
Proof.
  intros ip2s i w. destruct i as [name args| | |cb client| | | |code json|cb accounts x|status];
    cbn [dispatch may_fault].
  - rewrite find_callback_RegisterMessages. repeat case_decide; [| | | | |reflexivity].
    + now rewrite HandleStart_eq.
    + unfold HandleIsVisible. rewrite faulted_bind.
      destruct (GetBoolean args 0) as [b|]; cbn; [|reflexivity].
      unfold_M. now destruct b, (is_visible_ (this w)).
    + unfold_handlers; unfold_M. destruct (GetString args 0); cbn; [|reflexivity].
      now destruct (device_descriptions_ (this w) !! s).
    + unfold_handlers; unfold_M. cbn.
      destruct (privet_http_factory_ (this w)); cbn; [|reflexivity].
      now destruct (device_descriptions_ (this w) !! _).
    + unfold_handlers; unfold_M.
      destruct (GetInteger args 0); cbn; [|reflexivity].
      destruct (GetString args 1); cbn; [|reflexivity].
      destruct (privet_http_factory_ (this w)); cbn; [|reflexivity].
      now destruct (device_descriptions_ (this w) !! _).
  - reflexivity.
  - reflexivity.
  - destruct cb, client; reflexivity.
  - unfold_handlers; unfold_M. destruct (current_http_client_ (this w)) as [name|]; cbn;
      [|reflexivity].
    destruct (device_descriptions_ (this w) !! name) eqn:Hd; cbn; [|reflexivity].
    rewrite Hd. cbn. repeat case_decide; try reflexivity.
    now destruct (token_service (profile w)).
  - reflexivity.
  - reflexivity.
  - unfold_handlers; unfold_M.
    destruct (code =? HTTP_OK), json; reflexivity.
  - destruct cb; [|reflexivity]. now rewrite OnCloudPrintAccountsResolved_eq.
  - destruct status; [|reflexivity]. unfold_handlers; unfold_M.
    now destruct (current_register_operation_ (this w)).
Qed.

(** ** Resolution of a client *)

(** A failed client resolution, whatever it was for, is reported through
    registrationFailed and clears the current client; a successful one stores
    the client and starts the operation. *)
Lemma resolution_completion :
  forall (cb : ResolutionCallback) (w : World),
    run_resolution_callback cb None w
    = Done tt (with_this (set_current_http_client_ None (this w)) w)
        [registration_failed "Resolution failed"]
    /\ forall name,
         run_resolution_callback cb (Some name) w
         = match cb with
           | StartInfoHTTP_cb =>
               Done tt (with_this (set_current_http_client_ (Some name) (this w)) w)
                 [InfoOperationStart]
           | StartRegisterHTTP_cb user =>
               Done tt
                 (with_this
                    (set_current_register_operation_ (Some user)
                       (set_current_http_client_ (Some name) (this w))) w)
                 [RegisterOperationStart user]
           end.
Proof.
  intros cb w. split; [|intros name]; destruct cb; reflexivity.
Qed.

(** ** Arguments of the messages *)

(** X5: "info" does not check its argument: when the first argument is missing
    or not a string the request is made for the empty device name, which (with
    the HTTP factory present and no such entry yet) stores a default
    description under the empty name and starts a resolution for it; the same
    arguments make "registerDevice" fail its check. *)
Theorem X5_info_without_name_uses_empty_name :
  forall (args : list Value) (w : World),
    GetString args 0 = None ->
    privet_http_factory_ (this w) = true ->
    device_descriptions_ (this w) !! "" = None ->
    HandleInfoRequested args w
    = Done tt
        (with_registry (<["" := default_description]> (device_descriptions_ (this w))) w)
        [PrivetResolutionStart "" (address default_description) StartInfoHTTP_cb]
    /\ HandleRegisterDevice args w = Abort DcheckFailure.
Proof.
  intros args w Hargs Hfactory Habs. split.
  - unfold HandleInfoRequested. rewrite Hargs. cbn [default].
    erewrite bind_Done by reflexivity. cbn [this]. rewrite Hfactory.
    erewrite bind_Done by (apply device_descriptions_at_absent; exact Habs).
    reflexivity.
  - unfold HandleRegisterDevice. rewrite Hargs. reflexivity.
Qed.

Lemma X5_info_without_name_uses_empty_name_witness :
  GetString [IntegerValue 3] 0 = None
  /\ HandleInfoRequested [IntegerValue 3] (session profile_a 0 registry1)
     = Done tt
         (with_registry (<["" := default_description]> registry1)
            (session profile_a 0 registry1))
         [PrivetResolutionStart "" {| host := ""; port := 0 |} StartInfoHTTP_cb]
  /\ HandleRegisterDevice [IntegerValue 3] (session profile_a 0 registry1)
     = Abort DcheckFailure.
Proof.
  split; [reflexivity|].
  exact (X5_info_without_name_uses_empty_name [IntegerValue 3]
           (session profile_a 0 registry1) eq_refl eq_refl eq_refl).
Defined.

(** ** Visibility *)

(** X6: of two calls of SetIsVisible in a row only the second value matters:
    the counter, the object and the (empty) output are those of the second
    call alone. *)
Theorem X6_last_visibility_wins :
  forall (a b : bool) (w : World),
    (SetIsVisible a ;;; SetIsVisible b) w = SetIsVisible b w.
Proof.
  intros a b w. erewrite bind_Done by apply SetIsVisible_eq.
  rewrite !SetIsVisible_eq. cbn.
  destruct w as [g prof h]; cbn. f_equal. f_equal.
  destruct a, b, (is_visible_ h); cbn; lia.
Qed.

(** X7: the destructor leaves the object invisible, takes it out of the
    counter exactly when it was visible, and releases the discovery client
    exactly when the object holds one: once after a "start" that created it,
    never for a handler whose lister was set beforehand and that holds no
    client. *)
Theorem X7_destructor :
  forall (w : World),
    (exists w',
       LocalDiscoveryUIHandler_dtor w
       = Done tt w' (if service_discovery_client_ (this w) then [ReleaseClient] else [])
       /\ is_visible_ (this w') = false
       /\ service_discovery_client_ (this w') = false
       /\ g_num_visible w'
          = g_num_visible w - (if is_visible_ (this w) then 1 else 0)
       /\ device_descriptions_ (this w') = device_descriptions_ (this w))
    /\ forall args,
         effects_of ((HandleStart args ;;; LocalDiscoveryUIHandler_dtor) w)
         = ([ListerStart; DiscoverNewDevices false]
              ++ (if negb (privet_lister_ (this w)) || service_discovery_client_ (this w)
                  then [ReleaseClient] else []))%list.
Proof.
  intros w. split.
  - unfold LocalDiscoveryUIHandler_dtor.
    erewrite bind_Done by apply SetIsVisible_eq. unfold_M. cbn.
    destruct (service_discovery_client_ (this w)) eqn:Hc; cbn;
      (eexists; split; [reflexivity|]); cbn; rewrite ?Hc;
      destruct (is_visible_ (this w)); cbn; repeat split; lia.
  - intros args. erewrite bind_Done by apply HandleStart_eq.
    unfold LocalDiscoveryUIHandler_dtor.
    destruct (privet_lister_ (this w)); cbn [negb orb].
    + erewrite bind_Done by apply SetIsVisible_eq. unfold_M. cbn.
      now destruct (service_discovery_client_ (this w)).
    + erewrite bind_Done by apply SetIsVisible_eq. reflexivity.
Qed.

(** ** Parts of the state an input cannot reach *)

Lemma dispatch_keeps_visibility ip2s i w w' out :
  dispatch ip2s i w = Done tt w' out ->
  is_visibility_message i = false ->
  g_num_visible w' = g_num_visible w
  /\ is_visible_ (this w') = is_visible_ (this w)
  /\ profile w' = profile w.
Proof.
  intros H Hvis.
  destruct i as [name args| | |cb client| | | |code json|cb accounts x|status];
    cbn [dispatch is_visibility_message] in *.
  - rewrite find_callback_RegisterMessages in H. apply bool_decide_eq_false in Hvis.
    repeat case_decide; try congruence; step_dispatch H; auto.
  - step_dispatch H; auto.
  - step_dispatch H; auto.
  - destruct cb; step_dispatch H; auto.
  - step_dispatch H; auto.
  - step_dispatch H; auto.
  - step_dispatch H; auto.
  - step_dispatch H; auto.
  - destruct cb; [|step_dispatch H; auto].
    cbn [run_accounts_callback] in H.
    rewrite OnCloudPrintAccountsResolved_eq in H. injection H as <- <-. auto.
  - step_dispatch H; auto.
Qed.

Lemma bind_Done_inv {A B} (m : M A) (k : A -> M B) w b w' out :
  bind m k w = Done b w' out ->
  exists a w1 out1 out2,
    m w = Done a w1 out1 /\ k a w1 = Done b w' out2 /\ out = (out1 ++ out2)%list.
Proof.
  unfold bind. destruct (m w) as [a w1 out1|f]; [|discriminate].
  destruct (k a w1) as [b' w2 out2|f] eqn:Hk; [|discriminate].
  intros H. injection H as <- <- <-. eauto 10.
Qed.

(** X8: no input other than the "isVisible" message changes the process-wide
    counter or the object's [is_visible_] (nor the profile): they are the same
    after every completed run of such inputs. *)
Theorem X8_only_isVisible_moves_the_counter :
  forall (ip2s : list Z -> string) (inputs : list Input) (w w' : World) (out : list Effect),
    run ip2s inputs w = Done tt w' out ->
    forallb (fun i => negb (is_visibility_message i)) inputs = true ->
    g_num_visible w' = g_num_visible w
    /\ is_visible_ (this w') = is_visible_ (this w)
    /\ profile w' = profile w.
Proof.
  intros ip2s inputs. induction inputs as [|i inputs IH]; intros w w' out Hrun Hall.
  - injection Hrun as <- _. auto.
  - cbn [run] in Hrun. apply bind_Done_inv in Hrun as ([] & w1 & o1 & o2 & Hi & Hrest & _).
    cbn [forallb] in Hall. apply andb_true_iff in Hall as [Hi' Hall].
    apply negb_true_iff in Hi'.
    destruct (dispatch_keeps_visibility _ _ _ _ _ Hi Hi') as (Hg & Hv & Hp).
    destruct (IH _ _ _ Hrest Hall) as (Hg' & Hv' & Hp').
    repeat split; congruence.
Qed.

Lemma X8_only_isVisible_moves_the_counter_witness :
  match
    run dotted
      [Lister_DeviceRemoved "printer-1"; RegisterClaimToken "tok" {| spec := "" |};
       RegisterDone "dev-42"]
      (session profile_a 2 registry1)
  with
  | Done _ w' _ =>
      g_num_visible w' = 0 /\ is_visible_ (this w') = false /\ profile w' = profile_a
  | Abort _ => False
  end.
Proof.
  destruct (run dotted _ (session profile_a 2 registry1)) as [[] w' out|f] eqn:Hrun.
  - exact (X8_only_isVisible_moves_the_counter dotted _ _ w' out Hrun eq_refl).
  - vm_compute in Hrun. discriminate Hrun.
Defined.

Lemma grown_by_defaults_refl reg : grown_by_defaults reg reg.
Proof. intros k. now left. Qed.

Lemma grown_by_defaults_trans r1 r2 r3 :
  grown_by_defaults r1 r2 -> grown_by_defaults r2 r3 -> grown_by_defaults r1 r3.
Proof.
  intros H12 H23 k. destruct (H12 k) as [E12|[N1 E2]], (H23 k) as [E23|[N2 E3]].
  - left. congruence.
  - right. split; congruence.
  - right. split; congruence.
  - congruence.
Qed.

Lemma grown_by_defaults_insert (reg : gmap string DeviceDescription) name :
  reg !! name = None -> grown_by_defaults reg (<[name := default_description]> reg).
Proof.
  intros Hn k. destruct (decide (name = k)) as [->|Hne].
  - right. split; [exact Hn | apply lookup_insert_eq].
  - left. now apply lookup_insert_ne.
Qed.

Lemma dispatch_grows_registry ip2s i w w' out :
  dispatch ip2s i w = Done tt w' out ->
  is_lister_event i = false ->
  grown_by_defaults (device_descriptions_ (this w)) (device_descriptions_ (this w')).
Proof.
  intros H Hl.
  destruct i as [name args| | |cb client| | | |code json|cb accounts x|status];
    cbn [dispatch is_lister_event] in *; try discriminate Hl.
  - rewrite find_callback_RegisterMessages in H.
    repeat case_decide; step_dispatch H;
      first [apply grown_by_defaults_refl | now apply grown_by_defaults_insert | congruence].
  - destruct cb; step_dispatch H; first [apply grown_by_defaults_refl | congruence].
  - step_dispatch H; first [apply grown_by_defaults_refl | congruence].
  - step_dispatch H; first [apply grown_by_defaults_refl | congruence].
  - step_dispatch H; first [apply grown_by_defaults_refl | congruence].
  - step_dispatch H; first [apply grown_by_defaults_refl | congruence].
  - destruct cb; [|step_dispatch H; first [apply grown_by_defaults_refl | congruence]].
    cbn [run_accounts_callback] in H.
    rewrite OnCloudPrintAccountsResolved_eq in H. injection H as <- <-.
    apply grown_by_defaults_refl.
  - step_dispatch H; first [apply grown_by_defaults_refl | congruence].
Qed.


(** X9: inputs other than lister events never remove or alter a registry
    entry: after every completed run of such inputs each name is bound as
    before, or was unbound and is now bound to the default description. *)
Theorem X9_only_lister_events_change_entries :
  forall (ip2s : list Z -> string) (inputs : list Input) (w w' : World) (out : list Effect),
    run ip2s inputs w = Done tt w' out ->
    forallb (fun i => negb (is_lister_event i)) inputs = true ->
    grown_by_defaults (device_descriptions_ (this w)) (device_descriptions_ (this w')).
Proof.
  intros ip2s inputs. induction inputs as [|i inputs IH]; intros w w' out Hrun Hall.
  - injection Hrun as <- _. apply grown_by_defaults_refl.
  - cbn [run] in Hrun. apply bind_Done_inv in Hrun as ([] & w1 & o1 & o2 & Hi & Hrest & _).
    cbn [forallb] in Hall. apply andb_true_iff in Hall as [Hi' Hall].
    apply negb_true_iff in Hi'.
    eapply grown_by_defaults_trans.
    + exact (dispatch_grows_registry _ _ _ _ _ Hi Hi').
    + exact (IH _ _ _ Hrest Hall).
Qed.

Lemma X9_only_lister_events_change_entries_witness :
  match
    run dotted
      [Message "info" [StringValue "ghost"]; ResolutionDone StartInfoHTTP_cb None;
       Message "registerDevice" [StringValue "printer-1"]]
      (session profile_a 0 registry1)
  with
  | Done _ w' _ => grown_by_defaults registry1 (device_descriptions_ (this w'))
  | Abort _ => False
  end.
Proof.
  destruct (run dotted _ (session profile_a 0 registry1)) as [[] w' out|f] eqn:Hrun.
  - exact (X9_only_lister_events_change_entries dotted _ _ w' out Hrun eq_refl).
  - vm_compute in Hrun. discriminate Hrun.
Defined.

(** ** Requests for a known device *)

Lemma device_descriptions_at_present name d w :
  device_descriptions_ (this w) !! name = Some d ->
  device_descriptions_at name w = Done d w [].
Proof. intros Hd. unfold device_descriptions_at; unfold_M. now rewrite Hd. Qed.

Lemma HandleInfoRequested_present name d w :
  privet_http_factory_ (this w) = true ->
  device_descriptions_ (this w) !! name = Some d ->
  HandleInfoRequested [StringValue name] w
  = Done tt w [PrivetResolutionStart name (address d) StartInfoHTTP_cb].
Proof.
  intros Hf Hd. unfold HandleInfoRequested. cbn [GetString lookup list_lookup default].
  erewrite bind_Done by reflexivity. cbn [this]. rewrite Hf.
  erewrite bind_Done by (apply device_descriptions_at_present; exact Hd).
  reflexivity.
Qed.

Lemma HandleRegisterDevice_present name d w :
  device_descriptions_ (this w) !! name = Some d ->
  HandleRegisterDevice [StringValue name] w
  = Done tt (with_this (set_current_register_device_ name (this w)) w)
      [AccountManagerStart (url d) 0 OnCloudPrintAccountsResolved_cb].
Proof.
  intros Hd. unfold HandleRegisterDevice, GetCloudPrintBaseUrl.
  cbn [GetString lookup list_lookup default].
  erewrite bind_Done by reflexivity.
  erewrite bind_Done by reflexivity.
  erewrite bind_Done.
  2:{ erewrite bind_Done by (apply device_descriptions_at_present; exact Hd). reflexivity. }
  reflexivity.
Qed.

Lemma HandleChooseUser_present index user d w :
  privet_http_factory_ (this w) = true ->
  device_descriptions_ (this w) !! current_register_device_ (this w) = Some d ->
  HandleChooseUser [IntegerValue index; StringValue user] w
  = Done tt (with_this (set_current_register_user_index_ index (this w)) w)
      [PrivetResolutionStart (current_register_device_ (this w)) (address d)
         (StartRegisterHTTP_cb user)].
Proof.
  intros Hf Hd. unfold HandleChooseUser.
  cbn [GetInteger GetString lookup list_lookup default].
  erewrite bind_Done by reflexivity.
  erewrite bind_Done by reflexivity.
  erewrite bind_Done by reflexivity.
  erewrite bind_Done by reflexivity.
  cbn [this set_current_register_user_index_ privet_http_factory_ current_register_device_].
  rewrite Hf.
  erewrite bind_Done by (apply device_descriptions_at_present; exact Hd).
  reflexivity.
Qed.

(** X4: an info request for a known device, with the HTTP factory present,
    asks for a client at the device's address and leaves the state alone; when
    the client is resolved the info operation is started and its response is
    answered by renderInfo (status 200 with a payload) or infoFailed; when the
    resolution fails the page is told through registrationFailed "Resolution
    failed" (not through infoFailed) and nothing else is started.  The registry
    is the same at the end in both cases. *)
Theorem X4_info_request_flow :
  forall (ip2s : list Z -> string) (w : World) (name : string) (d : DeviceDescription)
         (http_code : Z) (json_value : option (list (string * Value))),
    privet_http_factory_ (this w) = true ->
    device_descriptions_ (this w) !! name = Some d ->
    let request := Message "info" [StringValue name] in
    let asked := PrivetResolutionStart name (address d) StartInfoHTTP_cb in
    run ip2s [request; ResolutionDone StartInfoHTTP_cb (Some name);
              InfoDone http_code json_value] w
    = Done tt (with_this (set_current_http_client_ (Some name) (this w)) w)
        [asked; InfoOperationStart;
         match json_value with
         | Some json => if decide (http_code = HTTP_OK) then render_info json
                        else info_failed http_code
         | None => info_failed http_code
         end]
    /\ run ip2s [request; ResolutionDone StartInfoHTTP_cb None] w
       = Done tt (with_this (set_current_http_client_ None (this w)) w)
           [asked; registration_failed "Resolution failed"].
Proof.
  intros ip2s w name d http_code json_value Hf Hd request asked. subst request asked.
  cbn [run dispatch].
  change (find_callback "info" RegisterMessages) with (Some HandleInfoRequested).
  split.
  - erewrite bind_Done by (apply HandleInfoRequested_present; eassumption).
    erewrite bind_Done by reflexivity.
    unfold OnPrivetInfoDone, LogInfoErrorToWeb, HTTP_OK; unfold_M.
    destruct json_value as [json|]; cbn.
    + case_decide as Hc.
      * rewrite Hc. reflexivity.
      * apply Z.eqb_neq in Hc. rewrite Hc. reflexivity.
    + destruct (http_code =? 200); reflexivity.
  - erewrite bind_Done by (apply HandleInfoRequested_present; eassumption).
    reflexivity.
Qed.

Lemma X4_info_request_flow_witness :
  run dotted
    [Message "info" [StringValue "printer-1"];
     ResolutionDone StartInfoHTTP_cb (Some "printer-1"); InfoDone 404 (Some [])]
    (session profile_a 0 registry1)
  = Done tt (session profile_a 0 registry1)
      [PrivetResolutionStart "printer-1" (address printer1) StartInfoHTTP_cb;
       InfoOperationStart; info_failed 404]
  /\ run dotted
       [Message "info" [StringValue "printer-1"]; ResolutionDone StartInfoHTTP_cb None]
       (session profile_a 0 registry1)
     = Done tt
         (with_this (set_current_http_client_ None (this (session profile_a 0 registry1)))
            (session profile_a 0 registry1))
         [PrivetResolutionStart "printer-1" (address printer1) StartInfoHTTP_cb;
          registration_failed "Resolution failed"].
Proof.
  exact (X4_info_request_flow dotted (session profile_a 0 registry1) "printer-1" printer1
           404 (Some []) eq_refl eq_refl).
Defined.

(** X12: a registration for a known device, with the HTTP factory present,
    runs as follows whatever the state was before: "registerDevice" records
    the device and asks for the accounts of index 0 at the device's base URL;
    the resolution is answered with the annotated list; "chooseUser" asks for
    a client at the device's address; the resolved client starts the register
    operation for the chosen user; and the claim token starts what the chosen
    selector calls for, where selector 0 uses the token that this request's
    account resolution delivered. *)
Theorem X12_registration_flow :
  forall (ip2s : list Z -> string) (w : World) (name : string) (d : DeviceDescription)
         (accounts : list string) (xsrf_token : string) (index : Z) (user token : string)
         (gurl : GURL),
    privet_http_factory_ (this w) = true ->
    device_descriptions_ (this w) !! name = Some d ->
    let sync_account := signed_in_account (profile w) in
    effects_of
      (run ip2s
         [Message "registerDevice" [StringValue name];
          AccountsDone OnCloudPrintAccountsResolved_cb accounts xsrf_token;
          Message "chooseUser" [IntegerValue index; StringValue user];
          ResolutionDone (StartRegisterHTTP_cb user) (Some name);
          RegisterClaimToken token gurl] w)
    = [AccountManagerStart (url d) 0 OnCloudPrintAccountsResolved_cb;
       CallJavascriptFunction "local_discovery.requestUser"
         [ListValue (primary_entry sync_account ++ secondary_entries sync_account accounts)];
       PrivetResolutionStart name (address d) (StartRegisterHTTP_cb user);
       RegisterOperationStart user;
       claim_token_effect (profile w) index xsrf_token d token].
Proof.
  intros ip2s w name d accounts xsrf_token index user token gurl Hf Hd sync_account.
  cbn [run dispatch run_accounts_callback run_resolution_callback].
  change (find_callback "registerDevice" RegisterMessages) with (Some HandleRegisterDevice).
  change (find_callback "chooseUser" RegisterMessages) with (Some HandleChooseUser).
  erewrite bind_Done by (apply HandleRegisterDevice_present; exact Hd).
  erewrite bind_Done by apply OnCloudPrintAccountsResolved_eq.
  erewrite bind_Done by (apply (HandleChooseUser_present index user d); [exact Hf | exact Hd]).
  erewrite bind_Done by reflexivity.
  erewrite bind_Done.
  2:{ apply (OnPrivetRegisterClaimToken_present token gurl _ name d); [reflexivity | exact Hd]. }
  reflexivity.
Qed.

Lemma X12_registration_flow_witness :
  effects_of
    (run dotted
       [Message "registerDevice" [StringValue "printer-1"];
        AccountsDone OnCloudPrintAccountsResolved_cb ["b@x"] "xsrf-9";
        Message "chooseUser" [IntegerValue 0; StringValue "b@x"];
        ResolutionDone (StartRegisterHTTP_cb "b@x") (Some "printer-1");
        RegisterClaimToken "tok" {| spec := "" |}]
       (session profile_a 5 registry1))
  = [AccountManagerStart "https://www.google.com/cloudprint" 0
       OnCloudPrintAccountsResolved_cb;
     CallJavascriptFunction "local_discovery.requestUser"
       [ListValue [account_entry (-1) "a@x"; account_entry 0 "b@x"]];
     PrivetResolutionStart "printer-1" (address printer1) (StartRegisterHTTP_cb "b@x");
     RegisterOperationStart "b@x";
     ConfirmFlowStart (CookieConfirmFlow 0 "xsrf-9" printer1_claim_url)].
Proof.
  exact (X12_registration_flow dotted (session profile_a 5 registry1) "printer-1" printer1
           ["b@x"] "xsrf-9" 0 "b@x" "tok" {| spec := "" |} eq_refl eq_refl).
Defined.

(** ** The registry as a map *)

(** X10: the removal of a device that is not in the registry leaves the whole
    state as it is and still sends the null notification; a repeated
    announcement of the same description leaves the state of the first but
    notifies the page again; and a removal after an announcement leaves the
    state of the removal alone. *)
Theorem X10_registry_updates_compose :
  forall (ip2s : list Z -> string) (added added' : bool) (name : string)
         (d : DeviceDescription) (w : World),
    (device_descriptions_ (this w) !! name = None ->
     DeviceRemoved name w = Done tt w [notification ip2s (Removed name)])
    /\ (DeviceChanged ip2s added name d ;;; DeviceChanged ip2s added' name d) w
       = Done tt (with_registry (<[name := d]> (device_descriptions_ (this w))) w)
           [notification ip2s (Changed added name d);
            notification ip2s (Changed added' name d)]
    /\ final_world ((DeviceChanged ip2s added name d ;;; DeviceRemoved name) w)
       = final_world (DeviceRemoved name w).
Proof.
  intros ip2s added added' name d w. split; [|split].
  - intros Habs. unfold DeviceRemoved; unfold_M. cbn. rewrite delete_id by exact Habs.
    destruct w as [g prof [ ]]; reflexivity.
  - erewrite bind_Done by apply DeviceChanged_eq. rewrite DeviceChanged_eq.
    cbn. now rewrite insert_insert_eq.
  - erewrite bind_Done by apply DeviceChanged_eq.
    unfold DeviceRemoved; unfold_M. cbn. now rewrite delete_insert_eq.
Qed.

(** ** The text of the claim URL *)

Lemma nul_free_append a b : nul_free (a +:+ b) = nul_free a && nul_free b.
Proof.
  induction a as [|c a IH]; simpl; [reflexivity|]. rewrite IH. now rewrite andb_assoc.
Qed.

Lemma nul_free_c_str s : nul_free (c_str s) = true.
Proof.
  induction s as [|c s IH]; cbn; [reflexivity|].
  case_decide as Hc; cbn; [reflexivity|]. now rewrite bool_decide_eq_false_2.
Qed.

Lemma c_str_nul_free s : nul_free s = true -> c_str s = s.
Proof.
  induction s as [|c s IH]; cbn; [reflexivity|]. intros H.
  apply andb_true_iff in H as [Hc Hs]. apply negb_true_iff, bool_decide_eq_false in Hc.
  rewrite decide_False by exact Hc. now rewrite IH.
Qed.

Lemma c_str_append_nul a b : c_str (a +:+ String Ascii.zero b) = c_str a.
Proof.
  induction a as [|c a IH]; simpl.
  - reflexivity.
  - case_decide; [reflexivity|]. now rewrite IH.
Qed.

(** X11: the text the handler builds with kPrivetAutomatedClaimURLFormat and
    hands to the GURL constructor (what GURL makes of it is not the
    handler's) is the device's base URL and the token, each read up to its
    first NUL character, around "/confirm?token=": the text never contains a
    NUL, anything after a NUL in the token or in the base URL is dropped, and
    for NUL-free strings the text is exactly base_url ++ "/confirm?token=" ++
    token: the handler itself escapes nothing in the token. *)
Theorem X11_claim_url_format_text :
  forall (base_url token rest : string),
    nul_free (kPrivetAutomatedClaimURLFormat base_url token) = true
    /\ kPrivetAutomatedClaimURLFormat base_url (token +:+ String Ascii.zero rest)
       = kPrivetAutomatedClaimURLFormat base_url token
    /\ kPrivetAutomatedClaimURLFormat (base_url +:+ String Ascii.zero rest) token
       = kPrivetAutomatedClaimURLFormat base_url token
    /\ (nul_free base_url = true -> nul_free token = true ->
        kPrivetAutomatedClaimURLFormat base_url token
        = base_url +:+ "/confirm?token=" +:+ token).
Proof.
  intros base_url token rest. unfold kPrivetAutomatedClaimURLFormat.
  split; [|split; [|split]].
  - now rewrite !nul_free_append, !nul_free_c_str.
  - now rewrite c_str_append_nul.
  - now rewrite c_str_append_nul.
  - intros Hb Ht. now rewrite !c_str_nul_free.
Qed.

(** ** A selector chosen while a resolution is pending *)

(** X13: the completion of a secondary-account resolution starts the cookie
    confirm flow with the selector the handler holds at that moment and
    ignores the account list it is given: when "chooseUser" arrives between
    the claim token (selector greater than 0) and the completion, the flow is
    started for the new selector with the token resolved for the old one. *)
Theorem X13_secondary_completion_uses_current_selector :
  forall (ip2s : list Z -> string) (w : World) (name : string) (d d' : DeviceDescription)
         (j : Z) (user token xsrf_token : string) (gurl : GURL) (accounts : list string),
    privet_http_factory_ (this w) = true ->
    current_http_client_ (this w) = Some name ->
    device_descriptions_ (this w) !! name = Some d ->
    device_descriptions_ (this w) !! current_register_device_ (this w) = Some d' ->
    0 < current_register_user_index_ (this w) ->
    let target := claim_url (url d) token in
    effects_of
      (run ip2s
         [RegisterClaimToken token gurl;
          Message "chooseUser" [IntegerValue j; StringValue user];
          AccountsDone (OnXSRFTokenForSecondaryAccount_cb target) accounts xsrf_token] w)
    = [AccountManagerStart (url d) (current_register_user_index_ (this w))
         (OnXSRFTokenForSecondaryAccount_cb target);
       PrivetResolutionStart (current_register_device_ (this w)) (address d')
         (StartRegisterHTTP_cb user);
       ConfirmFlowStart (CookieConfirmFlow j xsrf_token target)].
Proof.
  intros ip2s w name d d' j user token xsrf_token gurl accounts Hf Hc Hd Hd' Hpos target.
  cbn [run dispatch run_accounts_callback].
  change (find_callback "chooseUser" RegisterMessages) with (Some HandleChooseUser).
  erewrite bind_Done by (apply (OnPrivetRegisterClaimToken_present token gurl w name d Hc Hd)).
  erewrite bind_Done by (apply (HandleChooseUser_present j user d'); assumption).
  cbn. unfold kAccountIndexUseOAuth2.
  rewrite decide_False by lia. rewrite decide_False by lia. reflexivity.
Qed.

Lemma X13_secondary_completion_uses_current_selector_witness :
  effects_of
    (run dotted
       [RegisterClaimToken "tok" {| spec := "" |};
        Message "chooseUser" [IntegerValue 5; StringValue "e@x"];
        AccountsDone (OnXSRFTokenForSecondaryAccount_cb printer1_claim_url) [] "xsrf-2"]
       (session profile_a 2 registry1))
  = [AccountManagerStart "https://www.google.com/cloudprint" 2
       (OnXSRFTokenForSecondaryAccount_cb printer1_claim_url);
     PrivetResolutionStart "printer-1" (address printer1) (StartRegisterHTTP_cb "e@x");
     ConfirmFlowStart (CookieConfirmFlow 5 "xsrf-2" printer1_claim_url)].
Proof.
  refine (X13_secondary_completion_uses_current_selector dotted
            (session profile_a 2 registry1) "printer-1" printer1 printer1 5 "e@x" "tok"
            "xsrf-2" {| spec := "" |} [] eq_refl eq_refl eq_refl eq_refl _).
  reflexivity.
Defined.

(** ** Bounds of the counter *)

(** X14: through every sequence of constructions by Create(), toggles and
    destructions from the start of the process the counter is never negative
    and never exceeds the number of live handlers, so it is 0 whenever no
    handler is alive. *)
Theorem X14_counter_between_zero_and_handlers :
  forall es : list ProcessEvent,
  exists p,
    process_run es process_start = Some p
    /\ 0 <= num_visible p <= Z.of_nat (size (handlers p))
    /\ (handlers p = ∅ -> num_visible p = 0).
Proof.
  intros es.
  destruct (process_run_consistent es _ process_start_consistent) as (p & Hrun & Hp).
  exists p. split; [exact Hrun|].
  pose proof (counter_consistent_bounds p Hp) as Hb. split; [exact Hb|].
  intros He. rewrite He, map_size_empty in Hb. lia.
Qed.

(** ** Tags of the annotated account list *)

Lemma positioned_tags_from sync_account accounts : forall first tag,
  tag ∈ fst <$> filter (fun p => snd p <> sync_account) (positioned first accounts) ->
  first <= tag.
Proof.
  intros first tag Hin. apply list_elem_of_fmap in Hin as ([t n] & -> & Hin).
  apply list_elem_of_filter in Hin as [_ Hin].
  now apply elem_of_positioned in Hin as [Hle _].
Qed.

Lemma positioned_tags_NoDup sync_account accounts : forall first,
  NoDup (fst <$> filter (fun p => snd p <> sync_account) (positioned first accounts)).
Proof.
  induction accounts as [|name accounts IH]; intros first.
  - constructor.
  - rewrite positioned_cons, filter_cons. case_decide.
    + rewrite fmap_cons. apply NoDup_cons. split; [|apply IH].
      intros Hin. apply positioned_tags_from in Hin. cbn in Hin. lia.
    + apply IH.
Qed.

(** X15: the entries of the list sent to the page carry pairwise distinct
    tags, so a tag chosen by the page stands for one account; the name of the
    signed-in account occurs only under the token-path sentinel; and the list
    has at most one entry more than the resolver returned. *)
Theorem X15_account_tags_are_distinct :
  forall (accounts : list string) (xsrf_token : string) (w : World),
    let sync_account := signed_in_account (profile w) in
    requested_accounts (OnCloudPrintAccountsResolved accounts xsrf_token w)
    = (fun p => account_entry (fst p) (snd p)) <$> annotated_pairs sync_account accounts
    /\ NoDup (fst <$> annotated_pairs sync_account accounts)
    /\ (forall tag, (tag, sync_account) ∈ annotated_pairs sync_account accounts ->
                    tag = kAccountIndexUseOAuth2)
    /\ (length (annotated_pairs sync_account accounts) <= S (length accounts))%nat.
Proof.
  intros accounts xsrf_token w sync_account. unfold annotated_pairs.
  split; [|split; [|split]].
  - rewrite OnCloudPrintAccountsResolved_eq. cbn [requested_accounts effects_of].
    fold sync_account. rewrite fmap_app. unfold primary_entry, secondary_entries.
    now destruct (is_empty_string sync_account).
  - rewrite fmap_app. destruct (is_empty_string sync_account); cbn [fmap list_fmap app].
    + apply positioned_tags_NoDup.
    + apply NoDup_cons. split; [|apply positioned_tags_NoDup].
      intros Hin. apply positioned_tags_from in Hin.
      cbn in Hin. unfold kAccountIndexUseOAuth2 in Hin. lia.
  - intros tag Hin. apply elem_of_app in Hin as [Hin|Hin].
    + destruct (is_empty_string sync_account); [inversion Hin|].
      apply list_elem_of_singleton in Hin. congruence.
    + apply list_elem_of_filter in Hin as [Hne _]. now contradiction Hne.
  - rewrite length_app. pose proof (length_filter (fun p : Z * string => snd p <> sync_account)
                                       (positioned 0 accounts)) as Hf.
    unfold positioned in Hf at 2. rewrite length_imap in Hf.
    destruct (is_empty_string sync_account); cbn [length]; lia.
Qed.

(** * Concrete runs *)

Example claim_url_printer1 : claim_url (url printer1) "tok" = printer1_claim_url.
Proof. reflexivity. Qed.

Example c_str_stops_at_nul : c_str ("a" +:+ String Ascii.zero "b") = "a".
Proof. reflexivity. Qed.

Example print_d_404 : print_d 404 = "404" /\ print_d (-1) = "-1" /\ print_d 0 = "0".
Proof. repeat split; reflexivity. Qed.

Example service_info_printer1 :
  service_info dotted printer1
  = [("domain", StringValue "printer-1.local"); ("port", IntegerValue 8080);
     ("ip", StringValue "192.168.0.9"); ("lastSeen", StringValue "unknown");
     ("registered", BooleanValue false)].
Proof. reflexivity. Qed.

Example changed_then_removed :
  effects_of
    (run dotted
       [Lister_DeviceChanged true "p1" printer1; Lister_DeviceRemoved "p1";
        Lister_DeviceRemoved "p2"]
       (session profile_a 0 ∅))
  = [CallJavascriptFunction "local_discovery.onServiceUpdate"
       [StringValue "p1"; DictionaryValue (service_info dotted printer1)];
     CallJavascriptFunction "local_discovery.onServiceUpdate" [StringValue "p1"; NullValue];
     CallJavascriptFunction "local_discovery.onServiceUpdate" [StringValue "p2"; NullValue]].
Proof. reflexivity. Qed.

Example accounts_of_a :
  requested_accounts
    (OnCloudPrintAccountsResolved ["b@x"; "a@x"; "c@x"] "xsrf-1" (session profile_a 0 ∅))
  = [account_entry (-1) "a@x"; account_entry 0 "b@x"; account_entry 2 "c@x"].
Proof. reflexivity. Qed.

Example info_not_found :
  effects_of (OnPrivetInfoDone 404 (Some []) (session profile_a 0 ∅))
  = [CallJavascriptFunction "local_discovery.infoFailed" [StringValue "HTTP error 404"]].
Proof. reflexivity. Qed.

Example two_handlers_toggle :
  num_visible
    <$> process_run
          [Create 1 profile_a 0; Create 2 profile_a 0; Toggle 1 true; Toggle 1 true;
           Toggle 2 true; Toggle 1 false; Destroy 2; Destroy 1]
          process_start
  = Some 0
  /\ num_visible
       <$> process_run
             [Create 1 profile_a 0; Create 2 profile_a 0; Toggle 1 true; Toggle 1 true;
              Toggle 2 true; Toggle 1 false]
             process_start
     = Some 1.
Proof. split; vm_compute; reflexivity. Qed.

(** The end-to-end success scenario: discovery, register request, account
    list, choice of the token path, claim token, confirmation, completion. *)
Example end_to_end_success :
  effects_of
    (run dotted
       [Message "start" [];
        Lister_DeviceChanged true "p1" printer1;
        Message "registerDevice" [StringValue "p1"];
        AccountsDone OnCloudPrintAccountsResolved_cb [] "xsrf-1";
        Message "chooseUser" [IntegerValue (-1); StringValue "a@x"];
        ResolutionDone (StartRegisterHTTP_cb "a@x") (Some "p1");
        RegisterClaimToken "tok" {| spec := "" |};
        ConfirmDone SUCCESS;
        RegisterDone "dev-42"]
       {| g_num_visible := 0; profile := profile_a; this := LocalDiscoveryUIHandler_ctor 0 |})
  = [ListerStart; DiscoverNewDevices false;
     CallJavascriptFunction "local_discovery.onServiceUpdate"
       [StringValue "p1"; DictionaryValue (service_info dotted printer1)];
     AccountManagerStart "https://www.google.com/cloudprint" 0 OnCloudPrintAccountsResolved_cb;
     CallJavascriptFunction "local_discovery.requestUser"
       [ListValue [account_entry (-1) "a@x"]];
     PrivetResolutionStart "p1" (address printer1) (StartRegisterHTTP_cb "a@x");
     RegisterOperationStart "a@x";
     ConfirmFlowStart (OAuth2ConfirmFlow 7 printer1_claim_url);
     CompleteRegistration;
     CallJavascriptFunction "local_discovery.registrationSuccess" [StringValue "dev-42"]].
Proof. vm_compute. reflexivity. Qed.
